(** * setup.py: index provisioning and NDJSON bulk loading

    A shallow embedding of [setup.py].  Python values produced by
    [json.loads] are an inductive type, the functions of the script are
    written in a small monad that threads the console/network trace and the
    state of the outside world and that distinguishes a normal return, a
    raised exception and [sys.exit].  The library functions the script
    calls ([str.strip], [json.loads], the file system, the environment and
    the Elasticsearch client) are the fields of two interfaces, so every
    theorem holds for any behaviour of those; reference implementations of
    them are given after the script and are used to run it on concrete
    inputs. *)

From stdpp Require Import base option list strings gmap.
From Stdlib Require Import ZArith Lia Ascii.

Local Open Scope string_scope.
Local Open Scope Z_scope.
Local Open Scope list_scope.
Local Set Warnings "-register-all".

(** ** Python values *)

(** The values [json.loads] builds.  A Python [dict] keeps one entry per key
    in insertion order, which is an association list without duplicate
    keys.  An [int] is unbounded; a [float] is kept as the literal it was
    read from. *)
Inductive json : Type :=
  | JNull
  | JBool (b : bool)
  | JInt (z : Z)
  | JFloat (literal : string)
  | JStr (s : string)
  | JArr (items : list json)
  | JObj (entries : list (string * json)).

(** [d.get(k)] on the entries of a dict. *)
Fixpoint dict_get (k : string) (d : list (string * json)) : option json :=
  match d with
  | [] => None
  | (k', v) :: d' => if String.eqb k k' then Some v else dict_get k d'
  end.

(** [d[k] = v]: replaces the value in place or appends a new entry. *)
Fixpoint dict_set (k : string) (v : json) (d : list (string * json))
  : list (string * json) :=
  match d with
  | [] => [(k, v)]
  | (k', v') :: d' =>
      if String.eqb k k' then (k, v) :: d' else (k', v') :: dict_set k v d'
  end.

(** The action dictionaries handed to [elasticsearch.helpers.bulk]. *)
Record doc : Type := { _index : json; _id : json; _source : json }.

(** The exceptions the script tells apart; [PyException] is any other
    subclass of [Exception]. *)
Inductive exn : Type :=
  | FileNotFoundError
  | JSONDecodeError
  | AttributeError
  | PyException (name : string).

(** ** Console and network trace *)

(** One constructor per [print] of the script, with the values it
    formats. *)
Inductive message : Type :=
  | MsgMappingRead (filename : string)
  | MsgMappingNotFound (filename : string)
  | MsgMappingInvalid (filename : string)
  | MsgConnected (host : string)
  | MsgConnectFailed
  | MsgConnectError (e : exn)
  | MsgIndexExists (index_name : string)
  | MsgIndexDeleted (index_name : string)
  | MsgIndexCreated (index_name : string)
  | MsgIndexFailed (e : exn)
  | WarnMissingDoc (line : nat)
  | WarnInvalidJson (line : nat)
  | MsgParsed (count : nat) (filename : string)
  | MsgNdjsonNotFound (filename : string)
  | MsgNdjsonError (e : exn)
  | MsgNoDocuments (filename : string)
  | WarnBulkFailures (count : nat)
  | MsgFailure (item : json)
  | MsgMoreFailures (count : nat)
  | MsgIndexed (success_count : Z)
  | MsgBulkError (e : exn)
  | MsgStart
  | MsgEsHostUnset
  | MsgEsHostExample
  | MsgApiKeyUnset
  | MsgApiKeyExample
  | MsgConnecting (host : string)
  | MsgDone.

(** The client handle [Elasticsearch(hosts=[host], api_key=..,
    request_timeout=..)]. *)
Record client : Type :=
  { hosts : list string; api_key : string; request_timeout : Z }.

(** Requests sent to the cluster. *)
Inductive request : Type :=
  | Ping
  | IndicesExists (index : string)
  | IndicesDelete (index : string)
  | IndicesCreate (index : string) (body : json)
  | Bulk (actions : list doc) (chunk_size : Z).

Inductive event : Type :=
  | Print (m : message)
  | OpenFile (filename : string)
  | NewClient (es : client)
  | Net (es : client) (r : request).

Definition is_warning (ev : event) : bool :=
  match ev with
  | Print (WarnMissingDoc _) | Print (WarnInvalidJson _)
  | Print (WarnBulkFailures _) => true
  | _ => false
  end.

(** Events that reach outside the process: building a client and every
    request made through one. *)
Definition is_network (ev : event) : bool :=
  match ev with
  | NewClient _ | Net _ _ => true
  | _ => false
  end.

(** ** The interfaces of the outside *)

(** The pure library functions. *)
Class PyLib : Type :=
  { str_strip : string -> string;
    (** [json.loads]; [None] stands for [json.JSONDecodeError]. *)
    json_loads : string -> option json }.

(** The outside world with state [W]: environment, files, cluster.  Each
    operation answers with a value or an exception (a subclass of
    [Exception]) and a new state. *)
Class World (W : Type) : Type :=
  { os_getenv : string -> W -> option string;
    (** [open(filename, 'r')] and reading the whole text, as text mode
        delivers it: decoded, every line ending a single newline. *)
    read_text : string -> W -> (exn + string) * W;
    es_new : client -> W -> (exn + unit) * W;
    es_ping : client -> W -> (exn + bool) * W;
    es_indices_exists : client -> string -> W -> (exn + bool) * W;
    es_indices_delete : client -> string -> W -> (exn + unit) * W;
    es_indices_create : client -> string -> json -> W -> (exn + unit) * W;
    es_bulk : client -> list doc -> Z -> W -> (exn + Z * list json) * W }.

(** ** The monad of the script *)

Inductive outcome (A : Type) : Type :=
  | Ret (a : A)
  | Raise (e : exn)
  | Exit (code : Z)
  | Diverge.
Arguments Ret {A} a.
Arguments Raise {A} e.
Arguments Exit {A} code.
Arguments Diverge {A}.

Record state (W : Type) : Type := { trace : list event; world : W }.
Arguments trace {W} s.
Arguments world {W} s.
Arguments Build_state {W} trace world.

Definition M (W A : Type) : Type := state W -> outcome A * state W.

Definition ret {W A} (a : A) : M W A := fun s => (Ret a, s).

Definition bind {W A B} (m : M W A) (k : A -> M W B) : M W B :=
  fun s =>
    match m s with
    | (Ret a, s') => k a s'
    | (Raise e, s') => (Raise e, s')
    | (Exit c, s') => (Exit c, s')
    | (Diverge, s') => (Diverge, s')
    end.

Definition raise {W A} (e : exn) : M W A := fun s => (Raise e, s).

(** [sys.exit(code)]: [SystemExit] is not an [Exception], no handler of the
    script catches it. *)
Definition sys_exit {W A} (code : Z) : M W A := fun s => (Exit code, s).

Definition diverge {W A} : M W A := fun s => (Diverge, s).

Definition emit {W} (ev : event) : M W unit :=
  fun s => (Ret tt, {| trace := trace s ++ [ev]; world := world s |}).

Definition print {W} (m : message) : M W unit := emit (Print m).

(** [try: m except ...: h]: [handler e] is the body of the first clause
    that matches [e], if any. *)
Definition try_except {W A} (m : M W A) (handler : exn -> option (M W A))
  : M W A :=
  fun s =>
    match m s with
    | (Raise e, s') =>
        match handler e with
        | Some h => h s'
        | None => (Raise e, s')
        end
    | r => r
    end.

(** Calls an operation of the world, after recording [ev]. *)
Definition perform {W A} (ev : event) (op : W -> (exn + A) * W) : M W A :=
  fun s =>
    let t := trace s ++ [ev] in
    match op (world s) with
    | (inr a, w') => (Ret a, {| trace := t; world := w' |})
    | (inl e, w') => (Raise e, {| trace := t; world := w' |})
    end.

Declare Scope py_scope.
Delimit Scope py_scope with py.
Notation "x <- m ;; k" := (bind m (fun x => k))
  (at level 100, m at next level, right associativity) : py_scope.
Notation "m ;;; k" := (bind m (fun _ => k))
  (at level 100, right associativity) : py_scope.
Local Open Scope py_scope.

(** ** The script *)

Section Script.
Context {lib : PyLib} {W : Type} {Wd : World W}.

#[local] Abbreviation M := (M W).

(** [not s] for a string. *)
Definition str_falsy (s : string) : bool := String.eqb s "".

(** [not x] for [x = os.getenv(..)], which is [None] or a string. *)
Definition env_falsy (x : option string) : bool :=
  match x with
  | None => true
  | Some s => str_falsy s
  end.

(** [os.getenv(name)]. *)
Definition getenv (name : string) : M (option string) :=
  fun s => (Ret (os_getenv name (world s)), s).

(** [lines[i]] for [i >= 0]. *)
Definition py_index (lines : list string) (i : nat) : M string :=
  match lines !! i with
  | Some l => ret l
  | None => raise (PyException "IndexError")
  end.

(** [json.loads(s)]. *)
Definition loads (s : string) : M json :=
  match json_loads s with
  | Some v => ret v
  | None => raise JSONDecodeError
  end.

(** [v.get(k, default)]: only a dict has the method. *)
Definition py_get (v : json) (k : string) (default : json) : M json :=
  match v with
  | JObj d => ret (match dict_get k d with Some x => x | None => default end)
  | _ => raise AttributeError
  end.

(** [f.readlines()] on the text of a file: the lines, each with its
    terminating newline. *)
Fixpoint readlines (text : string) : list string :=
  match text with
  | EmptyString => []
  | String c rest =>
      if Ascii.eqb c "010"%char then String c EmptyString :: readlines rest
      else match readlines rest with
           | [] => [String c EmptyString]
           | l :: ls => String c l :: ls
           end
  end.

(** *** read_mapping_file (lines 8-20) *)
Definition read_mapping_file (filename : string) : M json :=
  try_except
    (text <- perform (OpenFile filename) (read_text filename) ;;
     mapping_data <- loads text ;;
     print (MsgMappingRead filename) ;;;
     ret mapping_data)
    (fun e =>
       match e with
       | FileNotFoundError =>
           Some (print (MsgMappingNotFound filename) ;;; sys_exit 1)
       | JSONDecodeError =>
           Some (print (MsgMappingInvalid filename) ;;; sys_exit 1)
       | _ => None
       end).

(** *** connect_to_elasticsearch (lines 23-41) *)
Definition connect_to_elasticsearch (host key : string)
  : M (option client) :=
  try_except
    (let es := {| hosts := [host]; api_key := key; request_timeout := 60 |} in
     perform (NewClient es) (es_new es) ;;;
     alive <- perform (Net es Ping) (es_ping es) ;;
     if alive : bool then
       print (MsgConnected host) ;;; ret (Some es)
     else
       print MsgConnectFailed ;;; ret None)
    (fun e => Some (print (MsgConnectError e) ;;; ret None)).

(** *** create_index (lines 44-60) *)
Definition create_index (es : client) (index_name : string) (mapping : json)
  : M bool :=
  try_except
    (found <- perform (Net es (IndicesExists index_name))
                      (es_indices_exists es index_name) ;;
     (if found : bool then
        print (MsgIndexExists index_name) ;;;
        perform (Net es (IndicesDelete index_name))
                (es_indices_delete es index_name) ;;;
        print (MsgIndexDeleted index_name)
      else ret tt) ;;;
     perform (Net es (IndicesCreate index_name mapping))
             (es_indices_create es index_name mapping) ;;;
     print (MsgIndexCreated index_name) ;;;
     ret true)
    (fun e => Some (print (MsgIndexFailed e) ;;; ret false)).

(** *** parse_ndjson_for_bulk (lines 63-108) *)

(** One iteration of the [while] loop (lines 72-98), from cursor [i] and
    the documents built so far to the next cursor and documents.  The
    document line is parsed before the action is looked into, and the
    handler of [JSONDecodeError] covers both calls of [json.loads]. *)
Definition loop_body (lines : list string) (st : nat * list doc)
  : M (nat * list doc) :=
  let '(i, documents) := st in
  line <- py_index lines i ;;
  if str_falsy (str_strip line) then
    ret (i + 1, documents)%nat
  else
    try_except
      (line <- py_index lines i ;;
       index_action <- loads (str_strip line) ;;
       if bool_decide (i + 1 < length lines)%nat then
         next <- py_index lines (i + 1) ;;
         doc_data <- loads (str_strip next) ;;
         index_info <- py_get index_action "index" (JObj []) ;;
         idx <- py_get index_info "_index" JNull ;;
         id <- py_get index_info "_id" JNull ;;
         let d := {| _index := idx; _id := id; _source := doc_data |} in
         ret (i + 2, documents ++ [d])%nat
       else
         print (WarnMissingDoc (i + 1)) ;;;
         ret (i + 1, documents)%nat)
      (fun e =>
         match e with
         | JSONDecodeError =>
             Some (print (WarnInvalidJson (i + 1)) ;;;
                   ret (i + 1, documents)%nat)
         | _ => None
         end).

(** [while i < len(lines): ...], at most [fuel] iterations; [Diverge]
    when they do not suffice. *)
Fixpoint while_loop (fuel : nat) (lines : list string)
         (st : nat * list doc) : M (list doc) :=
  if bool_decide (fst st < length lines)%nat then
    match fuel with
    | O => diverge
    | S fuel' => st' <- loop_body lines st ;; while_loop fuel' lines st'
    end
  else ret (snd st).

(** The loop of the parser on the lines read. *)
Definition parse_lines (lines : list string) : M (list doc) :=
  while_loop (length lines) lines (0%nat, []).

Definition parse_ndjson_for_bulk (filename : string)
  : M (option (list doc)) :=
  try_except
    (text <- perform (OpenFile filename) (read_text filename) ;;
     let lines := readlines text in
     documents <- parse_lines lines ;;
     print (MsgParsed (length documents) filename) ;;;
     ret (Some documents))
    (fun e =>
       match e with
       | FileNotFoundError =>
           Some (print (MsgNdjsonNotFound filename) ;;; ret None)
       | _ => Some (print (MsgNdjsonError e) ;;; ret None)
       end).

(** *** bulk_index_documents (lines 111-143) *)

(** [for failure in failed_items[:5]: print(..)]. *)
Fixpoint print_failures (items : list json) : M unit :=
  match items with
  | [] => ret tt
  | failure :: rest => print (MsgFailure failure) ;;; print_failures rest
  end.

Definition bulk_index_documents (es : client) (filename : string) : M bool :=
  documents <- parse_ndjson_for_bulk filename ;;
  match documents with
  | None => ret false
  | Some [] => print (MsgNoDocuments filename) ;;; ret false
  | Some documents =>
      try_except
        (r <- perform (Net es (Bulk documents 1000))
                      (es_bulk es documents 1000) ;;
         let '(success_count, failed_items) := r in
         (if bool_decide (failed_items = []) then ret tt
          else
            print (WarnBulkFailures (length failed_items)) ;;;
            print_failures (take 5 failed_items) ;;;
            if bool_decide (5 < length failed_items)%nat then
              print (MsgMoreFailures (length failed_items - 5))
            else ret tt) ;;;
         print (MsgIndexed success_count) ;;;
         ret true)
        (fun e => Some (print (MsgBulkError e) ;;; ret false))
  end.

(** *** main (lines 146-188) *)
Definition main : M unit :=
  print MsgStart ;;;
  es_host <- getenv "ES_HOST" ;;
  key <- getenv "API_KEY" ;;
  (if env_falsy es_host then
     print MsgEsHostUnset ;;; print MsgEsHostExample ;;; sys_exit 1
   else ret tt) ;;;
  (if env_falsy key then
     print MsgApiKeyUnset ;;; print MsgApiKeyExample ;;; sys_exit 1
   else ret tt) ;;;
  let es_host := default "" es_host in
  let key := default "" key in
  print (MsgConnecting es_host) ;;;
  es <- connect_to_elasticsearch es_host key ;;
  match es with
  | None => sys_exit 1
  | Some es =>
      read_mapping_file "index_mappings/ubi_events-mappings.json" ;;;
      ubi_queries_mapping <-
        read_mapping_file "index_mappings/ubi_events-mappings.json" ;;
      ok <- create_index es "ubi_events" ubi_queries_mapping ;;
      (if ok : bool then ret tt else sys_exit 1) ;;;
      ok <- create_index es "ubi_queries" ubi_queries_mapping ;;
      (if ok : bool then ret tt else sys_exit 1) ;;;
      ok <- bulk_index_documents es "sample_documents/bulk_index.ndjson" ;;
      (if ok : bool then ret tt else sys_exit 1) ;;;
      print MsgDone
  end.

(** The exit status of [python setup.py]: 0 when [main] returns, the
    argument of [sys.exit], 1 after an uncaught exception. *)
Definition exit_status {A} (o : outcome A) : option Z :=
  match o with
  | Ret _ => Some 0
  | Exit c => Some c
  | Raise _ => Some 1
  | Diverge => None
  end.

End Script.

(** ** Reference implementations of the library functions *)

Module Reference.

(** *** str.strip

    Whitespace as [str.isspace] has it on ASCII: tab to carriage return,
    the four separators 28-31 and the space. *)
Definition isspace (c : ascii) : bool :=
  let n := N_of_ascii c in
  ((9 <=? n) && (n <=? 13) || (28 <=? n) && (n <=? 32))%N.

Fixpoint lstrip (s : string) : string :=
  match s with
  | EmptyString => EmptyString
  | String c rest => if isspace c then lstrip rest else s
  end.

Fixpoint rstrip (s : string) : string :=
  match s with
  | EmptyString => EmptyString
  | String c rest =>
      match rstrip rest with
      | EmptyString => if isspace c then EmptyString else String c EmptyString
      | rest' => String c rest'
      end
  end.

Definition strip (s : string) : string := lstrip (rstrip s).

(** *** json.loads

    A recursive-descent reader of the grammar [json.loads] accepts: JSON
    with the three extra literals [NaN], [Infinity] and [-Infinity].
    Text is a string of bytes, non-ASCII characters being the bytes of
    their UTF-8 encoding. *)

(** The whitespace of the JSON grammar. *)
Definition json_ws (c : ascii) : bool :=
  let n := N_of_ascii c in
  ((n =? 32) || (n =? 9) || (n =? 10) || (n =? 13))%N.

Fixpoint skip_ws (s : string) : string :=
  match s with
  | String c rest => if json_ws c then skip_ws rest else s
  | EmptyString => EmptyString
  end.

Definition is_digit (c : ascii) : bool :=
  let n := N_of_ascii c in ((48 <=? n) && (n <=? 57))%N.

Definition digit_val (c : ascii) : Z := Z.of_N (N_of_ascii c) - 48.

(** The longest prefix of digits, and what follows it. *)
Fixpoint span_digits (s : string) : string * string :=
  match s with
  | String c rest =>
      if is_digit c then
        let '(ds, r) := span_digits rest in (String c ds, r)
      else (EmptyString, s)
  | EmptyString => (EmptyString, EmptyString)
  end.

Fixpoint digits_val (acc : Z) (ds : string) : Z :=
  match ds with
  | String c rest => digits_val (10 * acc + digit_val c) rest
  | EmptyString => acc
  end.

(** If [s] starts with [p], what follows. *)
Fixpoint strip_prefix (p s : string) : option string :=
  match p, s with
  | EmptyString, _ => Some s
  | String a p', String b s' =>
      if Ascii.eqb a b then strip_prefix p' s' else None
  | _, EmptyString => None
  end.

(** [(.[0-9]+)?]: the fraction and the rest. *)
Definition scan_frac (s : string) : string * string :=
  match s with
  | String "." rest =>
      match span_digits rest with
      | (EmptyString, _) => (EmptyString, s)
      | (ds, r) => (String "." ds, r)
      end
  | _ => (EmptyString, s)
  end.

(** [([eE][-+]?[0-9]+)?]: the exponent and the rest. *)
Definition scan_exp (s : string) : string * string :=
  match s with
  | String e rest =>
      if Ascii.eqb e "e" || Ascii.eqb e "E" then
        let '(sign, rest') :=
          match rest with
          | String "+" r => ("+", r)
          | String "-" r => ("-", r)
          | _ => (EmptyString, rest)
          end in
        match span_digits rest' with
        | (EmptyString, _) => (EmptyString, s)
        | (ds, r) => (String e (sign +:+ ds), r)
        end
      else (EmptyString, s)
  | EmptyString => (EmptyString, s)
  end.

(** A number: an integer part without leading zeros, then the optional
    fraction and exponent; [s] starts after the sign. *)
Definition scan_number (neg : bool) (s : string) : option (json * string) :=
  let '(ds, r) := span_digits s in
  let int_part : option (string * string) :=
    match ds with
    | EmptyString => None
    | String "0" more => Some ("0", more +:+ r)
    | _ => Some (ds, r)
    end in
  match int_part with
  | None => None
  | Some (ip, r) =>
      let '(frac, r1) := scan_frac r in
      let '(ex, r2) := scan_exp r1 in
      let sign := if neg then "-" else EmptyString in
      match frac, ex with
      | EmptyString, EmptyString =>
          let v := digits_val 0 ip in
          Some (JInt (if neg then - v else v), r2)
      | _, _ => Some (JFloat (sign +:+ ip +:+ frac +:+ ex), r2)
      end
  end.

Definition hex_val (c : ascii) : option N :=
  let n := N_of_ascii c in
  if ((48 <=? n) && (n <=? 57))%N then Some (n - 48)%N
  else if ((65 <=? n) && (n <=? 70))%N then Some (n - 55)%N
  else if ((97 <=? n) && (n <=? 102))%N then Some (n - 87)%N
  else None.

(** The four hex digits of a [\uXXXX] escape. *)
Definition scan_hex4 (s : string) : option (N * string) :=
  match s with
  | String a (String b (String c (String d rest))) =>
      match hex_val a, hex_val b, hex_val c, hex_val d with
      | Some x, Some y, Some z, Some w =>
          Some (((x * 16 + y) * 16 + z) * 16 + w, rest)%N
      | _, _, _, _ => None
      end
  | _ => None
  end.

Definition byte (n : N) : ascii := ascii_of_N n.

(** The double quote. *)
Definition dquote : ascii := byte 34.

(** The UTF-8 bytes of a code point. *)
Definition utf8 (cp : N) : string :=
  (if cp <? 128 then String (byte cp) EmptyString
   else if cp <? 2048 then
     String (byte (192 + cp / 64)) (String (byte (128 + cp mod 64)) EmptyString)
   else if cp <? 65536 then
     String (byte (224 + cp / 4096))
       (String (byte (128 + (cp / 64) mod 64))
          (String (byte (128 + cp mod 64)) EmptyString))
   else
     String (byte (240 + cp / 262144))
       (String (byte (128 + (cp / 4096) mod 64))
          (String (byte (128 + (cp / 64) mod 64))
             (String (byte (128 + cp mod 64)) EmptyString))))%N.

(** A [\uXXXX] escape, joined with a following low surrogate when it is a
    high one. *)
Definition scan_unicode (s : string) : option (string * string) :=
  match scan_hex4 s with
  | None => None
  | Some (hi, rest) =>
      let single := Some (utf8 hi, rest) in
      if ((55296 <=? hi) && (hi <=? 56319))%N then
        match rest with
        | String "\" (String "u" rest') =>
            match scan_hex4 rest' with
            | Some (lo, rest'') =>
                if ((56320 <=? lo) && (lo <=? 57343))%N then
                  Some (utf8 (65536 + (hi - 55296) * 1024 + (lo - 56320))%N,
                        rest'')
                else single
            | None => single
            end
        | _ => single
        end
      else single
  end.

(** The characters of a string literal after its opening quote, up to
    the closing one.  Control characters are refused, as [strict=True]
    does.  [fuel] bounds the number of characters. *)
Fixpoint scan_string (fuel : nat) (s : string) : option (string * string) :=
  match fuel with
  | O => None
  | S fuel' =>
      match s with
      | EmptyString => None
      | String c rest =>
          if Ascii.eqb c dquote then Some (EmptyString, rest)
          else if Ascii.eqb c "\" then
            match rest with
            | String e rest' =>
                let simple (b : N) :=
                  match scan_string fuel' rest' with
                  | Some (t, r) => Some (String (byte b) t, r)
                  | None => None
                  end in
                if Ascii.eqb e dquote then simple 34%N
                else if Ascii.eqb e "\" then simple 92%N
                else if Ascii.eqb e "/" then simple 47%N
                else if Ascii.eqb e "b" then simple 8%N
                else if Ascii.eqb e "f" then simple 12%N
                else if Ascii.eqb e "n" then simple 10%N
                else if Ascii.eqb e "r" then simple 13%N
                else if Ascii.eqb e "t" then simple 9%N
                else if Ascii.eqb e "u" then
                  match scan_unicode rest' with
                  | Some (u, r) =>
                      match scan_string fuel' r with
                      | Some (t, r') => Some (u +:+ t, r')
                      | None => None
                      end
                  | None => None
                  end
                else None
            | EmptyString => None
            end
          else if (N_of_ascii c <? 32)%N then None
          else
            match scan_string fuel' rest with
            | Some (t, r) => Some (String c t, r)
            | None => None
            end
      end
  end.

(** A value at the head of [s] (no leading whitespace), and the rest. *)
Fixpoint scan_value (fuel : nat) (s : string) : option (json * string) :=
  match fuel with
  | O => None
  | S fuel' =>
      (* the items of an array, [s] at the head of one *)
      let fix scan_items (n : nat) (acc : list json) (s : string)
        : option (json * string) :=
        match n with
        | O => None
        | S n' =>
            match scan_value fuel' s with
            | None => None
            | Some (v, r) =>
                match skip_ws r with
                | String "," r' => scan_items n' (acc ++ [v]) (skip_ws r')
                | String "]" r' => Some (JArr (acc ++ [v]), r')
                | _ => None
                end
            end
        end in
      (* the members of an object, [s] at the quote of a key *)
      let fix scan_members (n : nat) (acc : list (string * json))
              (s : string) : option (json * string) :=
        match n with
        | O => None
        | S n' =>
            match s with
            | String q r =>
                match (if Ascii.eqb q dquote
                       then scan_string (S (String.length r)) r
                       else None) with
                | None => None
                | Some (k, r1) =>
                    match skip_ws r1 with
                    | String ":" r2 =>
                        match scan_value fuel' (skip_ws r2) with
                        | None => None
                        | Some (v, r3) =>
                            let acc' := dict_set k v acc in
                            match skip_ws r3 with
                            | String "," r4 =>
                                scan_members n' acc' (skip_ws r4)
                            | String "}" r4 => Some (JObj acc', r4)
                            | _ => None
                            end
                        end
                    | _ => None
                    end
                end
            | _ => None
            end
        end in
      match s with
      | EmptyString => None
      | String c rest =>
          if Ascii.eqb c dquote then
            match scan_string (S (String.length rest)) rest with
            | Some (t, r) => Some (JStr t, r)
            | None => None
            end
          else if Ascii.eqb c "{" then
            match skip_ws rest with
            | String "}" r => Some (JObj [], r)
            | s' => scan_members (String.length s') [] s'
            end
          else if Ascii.eqb c "[" then
            match skip_ws rest with
            | String "]" r => Some (JArr [], r)
            | s' => scan_items (String.length s') [] s'
            end
          else if Ascii.eqb c "-" then
            match strip_prefix "Infinity" rest with
            | Some r => Some (JFloat "-Infinity", r)
            | None => scan_number true rest
            end
          else
            match strip_prefix "null" s, strip_prefix "true" s,
                  strip_prefix "false" s, strip_prefix "NaN" s,
                  strip_prefix "Infinity" s with
            | Some r, _, _, _, _ => Some (JNull, r)
            | _, Some r, _, _, _ => Some (JBool true, r)
            | _, _, Some r, _, _ => Some (JBool false, r)
            | _, _, _, Some r, _ => Some (JFloat "NaN", r)
            | _, _, _, _, Some r => Some (JFloat "Infinity", r)
            | _, _, _, _, _ => scan_number false s
            end
      end
  end.

(** [json.loads(s)]: one value between optional whitespace, nothing
    else. *)
Definition loads (s : string) : option json :=
  match scan_value (S (String.length s)) (skip_ws s) with
  | Some (v, r) =>
      match skip_ws r with
      | EmptyString => Some v
      | _ => None
      end
  | None => None
  end.

Definition python : PyLib := {| str_strip := strip; json_loads := loads |}.

End Reference.

(** ** A simulated world

    An environment, a file system and a single-node cluster held in finite
    maps.  The cluster stores, for each index, its mapping and its
    documents; it refuses to create an index that exists and to delete one
    that does not, and answers nothing when it is offline.  It accepts
    an action of a bulk request when the action names an existing index
    (indices are not created on the fly) and refuses it otherwise.  The
    bulk operation is [elasticsearch.helpers.bulk] called as the script
    calls it, with its defaults: a refused action makes it raise. *)

Module Sim.

Record t : Type :=
  { env : gmap string string;
    files : gmap string string;
    online : bool;
    indices : gmap string (json * list doc) }.

Definition with_indices (w : t) (ix : gmap string (json * list doc)) : t :=
  {| env := env w; files := files w; online := online w; indices := ix |}.

Definition getenv (name : string) (w : t) : option string := env w !! name.

Definition read (filename : string) (w : t) : (exn + string) * t :=
  match files w !! filename with
  | Some text => (inr text, w)
  | None => (inl FileNotFoundError, w)
  end.

(** A request to the cluster fails with a connection error when the
    cluster is offline. *)
Definition request {A} (w : t) (k : (exn + A) * t) : (exn + A) * t :=
  if online w then k else (inl (PyException "ConnectionError"), w).

Definition exists_ (es : client) (name : string) (w : t)
  : (exn + bool) * t :=
  request w (inr (bool_decide (is_Some (indices w !! name))), w).

Definition delete_ (es : client) (name : string) (w : t)
  : (exn + unit) * t :=
  request w
    match indices w !! name with
    | Some _ => (inr tt, with_indices w (delete name (indices w)))
    | None => (inl (PyException "NotFoundError"), w)
    end.

Definition create (es : client) (name : string) (mapping : json) (w : t)
  : (exn + unit) * t :=
  request w
    match indices w !! name with
    | Some _ => (inl (PyException "BadRequestError"), w)
    | None => (inr tt, with_indices w (<[name := (mapping, [])]> (indices w)))
    end.

(** The answer of the cluster for one refused action. *)
Definition failed_item (d : doc) : json :=
  JObj [("index", JObj [("_index", _index d); ("_id", _id d);
                        ("status", JInt 404)])].

Fixpoint store (actions : list doc) (ix : gmap string (json * list doc))
  : Z * list json * gmap string (json * list doc) :=
  match actions with
  | [] => (0, [], ix)
  | d :: rest =>
      match _index d with
      | JStr name =>
          match ix !! name with
          | Some (mapping, ds) =>
              let '(n, failed, ix') :=
                store rest (<[name := (mapping, ds ++ [d])]> ix) in
              (1 + n, failed, ix')
          | None =>
              let '(n, failed, ix') := store rest ix in
              (n, failed_item d :: failed, ix')
          end
      | _ =>
          let '(n, failed, ix') := store rest ix in
          (n, failed_item d :: failed, ix')
      end
  end.

(** Whether the cluster accepts an action: it names an index that
    exists. *)
Definition accepts (ix : gmap string (json * list doc)) (d : doc) : bool :=
  match _index d with
  | JStr name => bool_decide (is_Some (ix !! name))
  | _ => false
  end.

(** [helpers.bulk(es, actions, chunk_size=size)] with the defaults
    [raise_on_error=True] and [stats_only=False]: the actions go to the
    cluster in chunks of [size]; the cluster stores the actions of a chunk
    that it accepts; a chunk with a refused action makes the helper raise
    [BulkIndexError], and the chunks after it are not sent.  The result is
    the number of stored actions; [fuel] bounds the number of chunks. *)
Fixpoint send (fuel size : nat) (actions : list doc)
         (ix : gmap string (json * list doc))
  : (exn + Z) * gmap string (json * list doc) :=
  match fuel with
  | O => (inr 0, ix)
  | S fuel' =>
      match actions with
      | [] => (inr 0, ix)
      | _ =>
          let '(n, failed, ix') := store (take size actions) ix in
          match failed with
          | [] =>
              match send fuel' size (drop size actions) ix' with
              | (inr k, ix'') => (inr (n + k), ix'')
              | (inl e, ix'') => (inl e, ix'')
              end
          | _ => (inl (PyException "BulkIndexError"), ix')
          end
      end
  end.

(** The bulk operation of the client: when the helper returns, its list of
    failed items is empty, since a failed item makes it raise. *)
Definition bulk (es : client) (actions : list doc) (chunk_size : Z) (w : t)
  : (exn + Z * list json) * t :=
  request w
    match send (length actions) (Nat.max 1 (Z.to_nat chunk_size)) actions
               (indices w) with
    | (inr n, ix) => (inr (n, []), with_indices w ix)
    | (inl e, ix) => (inl e, with_indices w ix)
    end.

Definition instance : World t :=
  {| os_getenv := getenv;
     read_text := read;
     es_new := fun _ w => (inr tt, w);
     es_ping := fun _ w => (inr (online w), w);
     es_indices_exists := exists_;
     es_indices_delete := delete_;
     es_indices_create := create;
     es_bulk := bulk |}.

End Sim.

(** ** Notions used by the statements *)

Section Notions.
Context {lib : PyLib} {W : Type} {Wd : World W}.

(** The state after one more [print]. *)
Definition log (s : state W) (m : message) : state W :=
  {| trace := trace s ++ [Print m]; world := world s |}.

(** A computation that returns to its caller: no exception escapes, the
    process is not exited, the computation ends. *)
Definition returns {A} (r : outcome A * state W) : Prop :=
  exists a s', r = (Ret a, s').

(** The events a computation added to the trace. *)
Definition added (s s' : state W) : list event :=
  drop (length (trace s)) (trace s').

(** An environment variable that is not set, or set to the empty
    string. *)
Definition unset_or_empty (x : option string) : Prop :=
  x = None \/ x = Some "".

(** Whether an operation of the world answered without raising. *)
Definition succeeded {A} (r : exn + A) : bool :=
  match r with
  | inr _ => true
  | inl _ => false
  end.

(** From [s] to [s'] the trace only grew, and by no network event. *)
Definition offline (s s' : state W) : Prop :=
  exists evs,
    trace s' = trace s ++ evs /\ Forall (fun ev => is_network ev = false) evs.

(** A blank line: empty once stripped. *)
Definition blank (line : string) : Prop := str_strip line = "".

(** An action line and its document line as the bulk format has them:
    the action is an object whose [index] member is an object with the
    strings [_index] and [_id], the document is any value; [r] is the
    record the pair stands for. *)
Definition well_formed_pair (a d : string) (r : doc) : Prop :=
  ~ blank a /\
  exists entries info idx id body,
    json_loads (str_strip a) = Some (JObj entries) /\
    dict_get "index" entries = Some (JObj info) /\
    dict_get "_index" info = Some (JStr idx) /\
    dict_get "_id" info = Some (JStr id) /\
    json_loads (str_strip d) = Some body /\
    r = {| _index := JStr idx; _id := JStr id; _source := body |}.

(** A sequence of lines made of well-formed pairs only, and the records
    of its pairs in order. *)
Inductive well_formed_stream : list string -> list doc -> Prop :=
  | wfs_nil : well_formed_stream [] []
  | wfs_pair a d r lines docs :
      well_formed_pair a d r ->
      well_formed_stream lines docs ->
      well_formed_stream (a :: d :: lines) (r :: docs).

(** A parsed action line that is an object whose [index] member is
    missing or an object. *)
Definition object_action (v : json) : Prop :=
  exists entries,
    v = JObj entries /\
    match dict_get "index" entries with
    | None | Some (JObj _) => True
    | Some _ => False
    end.

(** The fields [_index] and [_id] the parser reads from a dict: [None]
    (here [JNull]) where the key is missing. *)
Definition field (k : string) (info : list (string * json)) : json :=
  default JNull (dict_get k info).

(** The record built from an object action line and a document. *)
Definition record_of (index_action doc_data : json) : doc :=
  let info :=
    match index_action with
    | JObj entries =>
        match dict_get "index" entries with
        | Some (JObj info) => info
        | _ => []
        end
    | _ => []
    end in
  {| _index := field "_index" info; _id := field "_id" info;
     _source := doc_data |}.

(** A parsed action line without the shape of an action: no [index]
    object, or one that lacks [_index] or [_id]. *)
Definition lacks_shape (v : json) : Prop :=
  match v with
  | JObj entries =>
      match dict_get "index" entries with
      | Some (JObj info) =>
          dict_get "_index" info = None \/ dict_get "_id" info = None
      | _ => True
      end
  | _ => True
  end.

(** A warning of the parser loop that names a line of a file of
    [n_lines] lines, counted from 1. *)
Definition parser_warning (n_lines : nat) (ev : event) : Prop :=
  exists n,
    (ev = Print (WarnMissingDoc n) \/ ev = Print (WarnInvalidJson n)) /\
    (1 <= n <= n_lines)%nat.

Definition is_print (ev : event) : bool :=
  match ev with
  | Print _ => true
  | _ => false
  end.

(** What a computation did besides printing: the files it opened, the
    client it built and the requests it sent, in order. *)
Definition effects (evs : list event) : list event :=
  filter (fun ev => is_print ev = false) evs.

(** The operations of a whole run of [main] with client [es], mapping
    [m], documents [docs]; [del1] and [del2] tell whether each index
    existed and was deleted. *)
Definition plan (es : client) (m : json) (del1 del2 : bool)
           (docs : list doc) : list event :=
  [NewClient es; Net es Ping;
   OpenFile "index_mappings/ubi_events-mappings.json";
   OpenFile "index_mappings/ubi_events-mappings.json";
   Net es (IndicesExists "ubi_events")]
  ++ (if del1 then [Net es (IndicesDelete "ubi_events")] else [])
  ++ [Net es (IndicesCreate "ubi_events" m);
      Net es (IndicesExists "ubi_queries")]
  ++ (if del2 then [Net es (IndicesDelete "ubi_queries")] else [])
  ++ [Net es (IndicesCreate "ubi_queries" m);
      OpenFile "sample_documents/bulk_index.ndjson";
      Net es (Bulk docs 1000)].

(** What [bulk_index_documents] prints about the failed items: nothing
    when there is none, else their number, the first five and, when there
    are more, how many were left out. *)
Definition failure_report (failed : list json) : list event :=
  match failed with
  | [] => []
  | _ =>
      Print (WarnBulkFailures (length failed))
      :: map (fun x => Print (MsgFailure x)) (take 5 failed)
      ++ (if bool_decide (5 < length failed)%nat
          then [Print (MsgMoreFailures (length failed - 5))] else [])
  end.

(** The rest of [main] once the client [es] is there (lines 171-188). *)
Definition after_connect (es : client) : M W unit :=
  read_mapping_file "index_mappings/ubi_events-mappings.json" ;;;
  ubi_queries_mapping <-
    read_mapping_file "index_mappings/ubi_events-mappings.json" ;;
  ok <- create_index es "ubi_events" ubi_queries_mapping ;;
  (if ok : bool then ret tt else sys_exit 1) ;;;
  ok <- create_index es "ubi_queries" ubi_queries_mapping ;;
  (if ok : bool then ret tt else sys_exit 1) ;;;
  ok <- bulk_index_documents es "sample_documents/bulk_index.ndjson" ;;
  (if ok : bool then ret tt else sys_exit 1) ;;;
  print MsgDone.

End Notions.

(** ** Concrete inputs *)

Module Example.

(** A text written with apostrophes in place of double quotes. *)
Fixpoint dq (s : string) : string :=
  match s with
  | EmptyString => EmptyString
  | String c rest =>
      String (if Ascii.eqb c "'" then Reference.dquote else c) (dq rest)
  end.

(** The text of a file with the given lines. *)
Fixpoint unlines (ls : list string) : string :=
  match ls with
  | [] => EmptyString
  | l :: rest => l +:+ String "010" (unlines rest)
  end.

Definition action1 : string := dq "{'index':{'_index':'a','_id':'1'}}".
Definition body1 : string := dq "{'f':1}".
Definition action2 : string := dq "{'index':{'_index':'a','_id':'2'}}".
Definition body2 : string := dq "{'f':2}".

(** The end of a line, a blank line of a file. *)
Definition nl : string := String "010" EmptyString.

(** The two pairs as [readlines] gives them. *)
Definition pair1 : list string := [action1 +:+ nl; body1 +:+ nl].
Definition pair2 : list string := [action2 +:+ nl; body2 +:+ nl].

(** A line that is not JSON. *)
Definition garbage : string := "oops" +:+ nl.

(** The NDJSON content of the two-pair example. *)
Definition two_pairs : string := unlines [action1; body1; action2; body2].

Definition record1 : doc :=
  {| _index := JStr "a"; _id := JStr "1"; _source := JObj [("f", JInt 1)] |}.
Definition record2 : doc :=
  {| _index := JStr "a"; _id := JStr "2"; _source := JObj [("f", JInt 2)] |}.

Definition mapping_file : string := "index_mappings/ubi_events-mappings.json".
Definition bulk_file : string := "sample_documents/bulk_index.ndjson".

Definition mapping_text : string :=
  dq "{'mappings':{'properties':{'f':{'type':'long'}}}}".

Definition es : client :=
  {| hosts := ["https://localhost:9200"]; api_key := "secret";
     request_timeout := 60 |}.

(** A world with the given variables and files and a cluster, online,
    that has the empty indices [names]. *)
Definition world_of (vars files : list (string * string))
           (names : list string) : Sim.t :=
  {| Sim.env := list_to_map vars;
     Sim.files := list_to_map files;
     Sim.online := true;
     Sim.indices := list_to_map (map (fun n => (n, (JNull, []))) names) |}.

Definition vars : list (string * string) :=
  [("ES_HOST", "https://localhost:9200"); ("API_KEY", "secret")].

(** The start of a run in a world: nothing printed or sent yet. *)
Definition start (w : Sim.t) : state Sim.t := {| trace := []; world := w |}.

(** A world whose bulk file has the given lines and whose cluster has no
    index. *)
Definition bulk_world (ls : list string) : Sim.t :=
  world_of vars [(bulk_file, unlines ls)] [].

(** The world of the example: both files, the documents going to index
    [a]. *)
Definition sim : Sim.t :=
  world_of vars [(mapping_file, mapping_text); (bulk_file, two_pairs)] ["a"].

(** The cluster of the example when it is down. *)
Definition offline_sim : Sim.t :=
  {| Sim.env := list_to_map vars;
     Sim.files := list_to_map [(mapping_file, mapping_text);
                               (bulk_file, two_pairs)];
     Sim.online := false;
     Sim.indices := ∅ |}.

(** A world whose files exist but may not be read; the variables are set
    and the cluster accepts everything. *)
Definition locked : World unit :=
  {| os_getenv := fun _ _ => Some "set";
     read_text := fun _ w => (inl (PyException "PermissionError"), w);
     es_new := fun _ w => (inr tt, w);
     es_ping := fun _ w => (inr true, w);
     es_indices_exists := fun _ _ w => (inr false, w);
     es_indices_delete := fun _ _ w => (inr tt, w);
     es_indices_create := fun _ _ _ w => (inr tt, w);
     es_bulk := fun _ docs _ w => (inr (Z.of_nat (length docs), []), w) |}.

End Example.

(** ** The parser loop *)

Section Loop.
Context {lib : PyLib} {W : Type} {Wd : World W}.
Implicit Types (lines : list string) (docs : list doc) (s : state W).

Lemma str_falsy_blank line : str_falsy (str_strip line) = true <-> blank line.
Proof. unfold str_falsy, blank. apply String.eqb_eq. Qed.

Lemma str_falsy_not_blank line :
  ~ blank line -> str_falsy (str_strip line) = false.
Proof.
  intros Hn. destruct (str_falsy (str_strip line)) eqn:E; [|done].
  by apply str_falsy_blank in E.
Qed.

(** *** The cases of one iteration *)

Lemma loop_body_blank lines i docs line s :
  lines !! i = Some line -> blank line ->
  loop_body lines (i, docs) s = (Ret (i + 1, docs)%nat, s).
Proof.
  intros Hi Hb. apply str_falsy_blank in Hb.
  unfold loop_body, bind, py_index. by rewrite Hi; cbn; rewrite Hb.
Qed.

Lemma loop_body_bad_action lines i docs line s :
  lines !! i = Some line -> ~ blank line ->
  json_loads (str_strip line) = None ->
  loop_body lines (i, docs) s
  = (Ret (i + 1, docs)%nat, log s (WarnInvalidJson (i + 1))).
Proof.
  intros Hi Hb Hl. apply str_falsy_not_blank in Hb.
  unfold loop_body, bind, try_except, py_index, loads.
  by rewrite Hi; cbn; rewrite Hb, Hl.
Qed.

Lemma loop_body_orphan lines i docs line v s :
  lines !! i = Some line -> ~ blank line ->
  json_loads (str_strip line) = Some v ->
  (length lines <= i + 1)%nat ->
  loop_body lines (i, docs) s
  = (Ret (i + 1, docs)%nat, log s (WarnMissingDoc (i + 1))).
Proof.
  intros Hi Hb Hl Hlen. apply str_falsy_not_blank in Hb.
  unfold loop_body, bind, try_except, py_index, loads.
  rewrite Hi; cbn; rewrite Hb, Hl; cbn.
  rewrite bool_decide_eq_false_2 by lia. done.
Qed.

Lemma loop_body_bad_doc lines i docs line v next s :
  lines !! i = Some line -> ~ blank line ->
  json_loads (str_strip line) = Some v ->
  lines !! (i + 1)%nat = Some next ->
  json_loads (str_strip next) = None ->
  loop_body lines (i, docs) s
  = (Ret (i + 1, docs)%nat, log s (WarnInvalidJson (i + 1))).
Proof.
  intros Hi Hb Hl Hn Hd. apply str_falsy_not_blank in Hb.
  apply lookup_lt_Some in Hn as Hlen.
  unfold loop_body, bind, try_except, py_index, loads.
  rewrite Hi; cbn; rewrite Hb, Hl; cbn.
  rewrite bool_decide_eq_true_2 by lia. by rewrite Hn; cbn; rewrite Hd.
Qed.

Lemma loop_body_object lines i docs line v next body s :
  lines !! i = Some line -> ~ blank line ->
  json_loads (str_strip line) = Some v ->
  lines !! (i + 1)%nat = Some next ->
  json_loads (str_strip next) = Some body ->
  object_action v ->
  loop_body lines (i, docs) s
  = (Ret (i + 2, docs ++ [record_of v body])%nat, s).
Proof.
  intros Hi Hb Hl Hn Hd (entries & -> & Ho). apply str_falsy_not_blank in Hb.
  apply lookup_lt_Some in Hn as Hlen.
  unfold loop_body, bind, try_except, py_index, loads.
  rewrite Hi; cbn; rewrite Hb, Hl; cbn.
  rewrite bool_decide_eq_true_2 by lia. rewrite Hn; cbn; rewrite Hd; cbn.
  unfold record_of, field.
  destruct (dict_get "index" entries) as [[]|]; try done.
Qed.

Lemma loop_body_not_object lines i docs line v next body s :
  lines !! i = Some line -> ~ blank line ->
  json_loads (str_strip line) = Some v ->
  lines !! (i + 1)%nat = Some next ->
  json_loads (str_strip next) = Some body ->
  ~ object_action v ->
  loop_body lines (i, docs) s = (Raise AttributeError, s).
Proof.
  intros Hi Hb Hl Hn Hd Ho. apply str_falsy_not_blank in Hb.
  apply lookup_lt_Some in Hn as Hlen.
  unfold loop_body, bind, try_except, py_index, loads.
  rewrite Hi; cbn; rewrite Hb, Hl; cbn.
  rewrite bool_decide_eq_true_2 by lia. rewrite Hn; cbn; rewrite Hd; cbn.
  destruct v; try done.
  cbn. destruct (dict_get "index" entries) as [[]|] eqn:E; try done;
    exfalso; apply Ho; eexists; split; try done; by rewrite E.
Qed.

Lemma object_action_dec (v : json) : object_action v \/ ~ object_action v.
Proof.
  destruct v as [| | | | | |entries];
    try (right; intros (? & ? & ?); discriminate).
  destruct (dict_get "index" entries) as [x|] eqn:E.
  - destruct x; try (right; intros (? & [= <-] & H); by rewrite E in H).
    left. eexists; split; [done|]. by rewrite E.
  - left. eexists; split; [done|]. by rewrite E.
Qed.

(** Whatever the lines, an iteration inside the bounds either moves the
    cursor forward, by one or two lines and not past the end, or leaves
    the loop with an [AttributeError]. *)
Lemma loop_body_cases lines i docs s :
  (i < length lines)%nat ->
  (exists i' docs' s',
      loop_body lines (i, docs) s = (Ret (i', docs'), s') /\
      (i < i' <= i + 2)%nat /\ (i' <= length lines)%nat) \/
  loop_body lines (i, docs) s = (Raise AttributeError, s).
Proof.
  intros Hlt. destruct (lookup_lt_is_Some_2 lines i Hlt) as [line Hi].
  destruct (str_falsy (str_strip line)) eqn:Hb.
  { apply str_falsy_blank in Hb. left. eexists _, _, _.
    split; [by eapply loop_body_blank|lia]. }
  assert (~ blank line) as Hnb.
  { intros H%str_falsy_blank. congruence. }
  destruct (json_loads (str_strip line)) as [v|] eqn:Hl; cycle 1.
  { left. eexists _, _, _. split; [by eapply loop_body_bad_action|lia]. }
  destruct (decide (i + 1 < length lines)%nat) as [Hn|Hn]; cycle 1.
  { left. eexists _, _, _.
    split; [eapply loop_body_orphan; eauto; lia|lia]. }
  destruct (lookup_lt_is_Some_2 lines (i + 1) Hn) as [next Hnext].
  destruct (json_loads (str_strip next)) as [body|] eqn:Hd; cycle 1.
  { left. eexists _, _, _. split; [by eapply loop_body_bad_doc|lia]. }
  destruct (object_action_dec v) as [Ho|Ho].
  - left. eexists _, _, _. split; [by eapply loop_body_object|lia].
  - right. by eapply loop_body_not_object.
Qed.

(** *** The loop *)

Lemma while_loop_unfold fuel lines st :
  while_loop fuel lines st
  = if bool_decide (fst st < length lines)%nat then
      match fuel return M W (list doc) with
      | O => diverge
      | S fuel' => bind (loop_body lines st) (while_loop fuel' lines)
      end
    else ret (snd st).
Proof. by destruct fuel. Qed.

Lemma while_loop_exit fuel lines i docs s :
  (length lines <= i)%nat -> while_loop fuel lines (i, docs) s = (Ret docs, s).
Proof.
  intros H. rewrite while_loop_unfold. cbn [fst snd].
  by rewrite bool_decide_eq_false_2 by lia.
Qed.

(** Any two amounts of fuel that cover the lines left give the same
    run. *)
Lemma while_loop_enough f1 : forall f2 lines i docs s,
  (length lines - i <= f1)%nat -> (length lines - i <= f2)%nat ->
  while_loop f1 lines (i, docs) s = while_loop f2 lines (i, docs) s.
Proof.
  induction f1 as [|f1 IH]; intros f2 lines i docs s H1 H2.
  - rewrite !while_loop_exit by lia. done.
  - destruct (decide (i < length lines)%nat) as [Hlt|Hge]; cycle 1.
    { rewrite !while_loop_exit by lia. done. }
    destruct f2 as [|f2]; [lia|].
    rewrite !while_loop_unfold. cbn [fst snd].
    rewrite bool_decide_eq_true_2 by done. unfold bind.
    destruct (loop_body_cases lines i docs s Hlt)
      as [(i' & docs' & s' & -> & Hi' & _)| ->]; [|done].
    apply IH; lia.
Qed.

Lemma while_loop_step fuel lines i docs s i' docs' s' :
  (length lines - i <= fuel)%nat -> (i < length lines)%nat ->
  loop_body lines (i, docs) s = (Ret (i', docs'), s') ->
  while_loop fuel lines (i, docs) s = while_loop fuel lines (i', docs') s'.
Proof.
  intros Hf Hlt Hb. destruct fuel as [|fuel]; [lia|].
  destruct (loop_body_cases lines i docs s Hlt)
    as [(i'' & docs'' & s'' & E & Hi' & _)|E]; rewrite E in Hb; [|done].
  injection Hb as -> -> ->.
  rewrite (while_loop_unfold (S fuel) lines (i, docs)). cbn [fst snd].
  rewrite bool_decide_eq_true_2 by done. unfold bind. rewrite E.
  apply while_loop_enough; lia.
Qed.

Lemma while_loop_raise fuel lines i docs s e s' :
  (length lines - i <= fuel)%nat -> (i < length lines)%nat ->
  loop_body lines (i, docs) s = (Raise e, s') ->
  while_loop fuel lines (i, docs) s = (Raise e, s').
Proof.
  intros Hf Hlt Hb. destruct fuel as [|fuel]; [lia|].
  rewrite while_loop_unfold. cbn [fst snd].
  rewrite bool_decide_eq_true_2 by done. unfold bind. by rewrite Hb.
Qed.

(** With fuel for every line left the loop ends: it returns the documents
    or is left by an [AttributeError]. *)
Lemma while_loop_ends fuel : forall lines i docs s,
  (length lines - i <= fuel)%nat ->
  (exists docs' s', while_loop fuel lines (i, docs) s = (Ret docs', s')) \/
  (exists s', while_loop fuel lines (i, docs) s = (Raise AttributeError, s')).
Proof.
  induction fuel as [|fuel IH]; intros lines i docs s Hf.
  - left. eexists _, _. apply while_loop_exit. lia.
  - destruct (decide (i < length lines)%nat) as [Hlt|Hge]; cycle 1.
    { left. eexists _, _. apply while_loop_exit. lia. }
    destruct (loop_body_cases lines i docs s Hlt)
      as [(i' & docs' & s' & E & Hi' & _)|E].
    + rewrite (while_loop_step _ _ _ _ _ _ _ _ Hf Hlt E).
      rewrite (while_loop_enough (S fuel) fuel) by lia. apply IH. lia.
    + right. eexists. by eapply while_loop_raise.
Qed.

(** *** Well-formed streams *)

Lemma well_formed_stream_length lines docs :
  well_formed_stream lines docs -> length lines = (2 * length docs)%nat.
Proof. induction 1; cbn in *; lia. Qed.

Lemma well_formed_stream_app l1 d1 l2 d2 :
  well_formed_stream l1 d1 -> well_formed_stream l2 d2 ->
  well_formed_stream (l1 ++ l2) (d1 ++ d2).
Proof. induction 1; intros; cbn; [done|]. constructor; auto. Qed.

Lemma well_formed_pair_step pre a d rest r docs s :
  well_formed_pair a d r ->
  loop_body (pre ++ a :: d :: rest) (length pre, docs) s
  = (Ret (length pre + 2, docs ++ [r])%nat, s).
Proof.
  intros (Hb & entries & info & idx & id & body & Ha & Hix & Hi & Hd & Hbody
          & ->).
  erewrite loop_body_object; eauto.
  - unfold record_of, field. by rewrite Hix, Hi, Hd.
  - by rewrite lookup_app_r, Nat.sub_diag by lia.
  - rewrite lookup_app_r by lia.
    by replace (length pre + 1 - length pre)%nat with 1%nat by lia.
  - eexists; split; [done|]. by rewrite Hix.
Qed.

(** The loop crosses a well-formed stream found at the cursor, whatever
    comes before and after it, adding its records and printing
    nothing. *)
Lemma while_loop_stream lines docs :
  well_formed_stream lines docs ->
  forall fuel pre post acc s,
    (length (lines ++ post) <= fuel)%nat ->
    while_loop fuel (pre ++ lines ++ post) (length pre, acc) s
    = while_loop fuel (pre ++ lines ++ post)
        (length pre + length lines, acc ++ docs)%nat s.
Proof.
  induction 1 as [|a d r lines docs Hp _ IH]; intros fuel pre post acc s Hf.
  - cbn. by rewrite Nat.add_0_r, app_nil_r.
  - cbn [app length] in *.
    erewrite while_loop_step; cycle 1.
    + rewrite !length_app. cbn. lia.
    + rewrite !length_app. cbn. lia.
    + by apply well_formed_pair_step.
    + specialize (IH fuel (pre ++ [a; d]) post (acc ++ [r]) s).
      rewrite <- !app_assoc, !length_app in IH. cbn in IH.
      rewrite IH by (rewrite length_app in Hf; lia). do 2 f_equal. lia.
Qed.

Lemma parse_lines_stream lines docs s :
  well_formed_stream lines docs -> parse_lines lines s = (Ret docs, s).
Proof.
  intros H. unfold parse_lines.
  pose proof (while_loop_stream lines docs H (length lines) [] [] [] s) as E.
  rewrite !app_nil_r in E. cbn in E. rewrite E by lia.
  apply while_loop_exit. lia.
Qed.

(** *** Reading the file *)

Lemma parse_ndjson_for_bulk_ok filename text w' docs s s1 :
  read_text filename (world s) = (inr text, w') ->
  parse_lines (readlines text)
    {| trace := trace s ++ [OpenFile filename]; world := w' |}
  = (Ret docs, s1) ->
  parse_ndjson_for_bulk filename s
  = (Ret (Some docs), log s1 (MsgParsed (length docs) filename)).
Proof.
  intros Hr Hp. unfold parse_ndjson_for_bulk, try_except, bind, perform.
  by rewrite Hr, Hp.
Qed.

Lemma parse_ndjson_for_bulk_aborted filename text w' s s1 :
  read_text filename (world s) = (inr text, w') ->
  parse_lines (readlines text)
    {| trace := trace s ++ [OpenFile filename]; world := w' |}
  = (Raise AttributeError, s1) ->
  parse_ndjson_for_bulk filename s
  = (Ret None, log s1 (MsgNdjsonError AttributeError)).
Proof.
  intros Hr Hp. unfold parse_ndjson_for_bulk, try_except, bind, perform.
  by rewrite Hr, Hp.
Qed.

(** The parser returns to its caller on every file and every world. *)
Lemma parse_ndjson_for_bulk_returns filename s :
  returns (parse_ndjson_for_bulk filename s).
Proof.
  unfold returns, parse_ndjson_for_bulk, try_except, bind, perform.
  destruct (read_text filename (world s)) as [[e|text] w'].
  - destruct e; by eexists _, _.
  - unfold parse_lines.
    edestruct (while_loop_ends (length (readlines text)) (readlines text)
                 0 []) as [(docs & s1 & ->)|(s1 & ->)]; [lia| |];
      by eexists _, _.
Qed.

(** *** The parser sends nothing *)

Lemma offline_refl s : offline s s.
Proof. exists []. by rewrite app_nil_r. Qed.

Lemma offline_trans s1 s2 s3 : offline s1 s2 -> offline s2 s3 -> offline s1 s3.
Proof.
  intros (e1 & E1 & F1) (e2 & E2 & F2). exists (e1 ++ e2).
  rewrite E2, E1, app_assoc. split; [done|]. by apply Forall_app.
Qed.

Lemma offline_log s m : offline s (log s m).
Proof. exists [Print m]. split; [done|]. by repeat constructor. Qed.

Lemma offline_added s s' :
  offline s s' -> Forall (fun ev => is_network ev = false) (added s s').
Proof.
  intros (evs & E & F). unfold added. by rewrite E, drop_app_length.
Qed.

Lemma loop_body_offline lines i docs s :
  (i < length lines)%nat -> offline s (snd (loop_body lines (i, docs) s)).
Proof.
  intros Hlt. destruct (lookup_lt_is_Some_2 lines i Hlt) as [line Hi].
  destruct (str_falsy (str_strip line)) eqn:Hb.
  { apply str_falsy_blank in Hb. erewrite loop_body_blank by done.
    apply offline_refl. }
  assert (~ blank line) as Hnb.
  { intros H%str_falsy_blank. congruence. }
  destruct (json_loads (str_strip line)) as [v|] eqn:Hl; cycle 1.
  { erewrite loop_body_bad_action by done. apply offline_log. }
  destruct (decide (i + 1 < length lines)%nat) as [Hn|Hn]; cycle 1.
  { erewrite loop_body_orphan by (done || lia). apply offline_log. }
  destruct (lookup_lt_is_Some_2 lines (i + 1) Hn) as [next Hnext].
  destruct (json_loads (str_strip next)) as [body|] eqn:Hd; cycle 1.
  { erewrite loop_body_bad_doc by done. apply offline_log. }
  destruct (object_action_dec v) as [Ho|Ho].
  - erewrite loop_body_object by done. apply offline_refl.
  - erewrite loop_body_not_object by done. apply offline_refl.
Qed.

Lemma while_loop_offline fuel : forall lines i docs s,
  offline s (snd (while_loop fuel lines (i, docs) s)).
Proof.
  induction fuel as [|fuel IH]; intros lines i docs s;
    rewrite while_loop_unfold; cbn [fst snd];
    (destruct (decide (i < length lines)%nat) as [Hlt|Hge];
     [rewrite bool_decide_eq_true_2 by done
     |rewrite bool_decide_eq_false_2 by done; apply offline_refl]).
  - apply offline_refl.
  - pose proof (loop_body_offline lines i docs s Hlt) as Hq. unfold bind.
    destruct (loop_body lines (i, docs) s) as [[[i' docs']|e|c|] s'];
      cbn [snd] in *; [|done..].
    eapply offline_trans; [done|apply IH].
Qed.

(** Whatever the file, the parser builds no client and sends no
    request. *)
Lemma parse_ndjson_for_bulk_offline filename s :
  offline s (snd (parse_ndjson_for_bulk filename s)).
Proof.
  unfold parse_ndjson_for_bulk, try_except, bind, perform, print, emit.
  destruct (read_text filename (world s)) as [[e|text] w'].
  - destruct e; cbn; rewrite <- app_assoc; eexists; (split; [done|]);
      by repeat constructor.
  - unfold parse_lines.
    pose proof (while_loop_offline (length (readlines text)) (readlines text)
                  0 [] {| trace := trace s ++ [OpenFile filename];
                          world := w' |}) as Hq.
    destruct (while_loop _ _ _ _) as [o s1]. cbn [snd] in Hq.
    assert (offline s s1) as Hs.
    { eapply offline_trans; [|exact Hq].
      exists [OpenFile filename]. split; [done|by repeat constructor]. }
    destruct o as [docs|e|c|]; [|destruct e|..]; cbn;
      first [exact Hs|eapply offline_trans; [exact Hs|apply offline_log]].
Qed.

(** *** Blank lines *)

Lemma parse_lines_blank_between l1 d1 l2 d2 b s :
  well_formed_stream l1 d1 -> well_formed_stream l2 d2 -> blank b ->
  parse_lines (l1 ++ b :: l2) s = (Ret (d1 ++ d2), s).
Proof.
  intros H1 H2 Hb. unfold parse_lines.
  set (fuel := length (l1 ++ b :: l2)).
  pose proof (while_loop_stream l1 d1 H1 fuel [] (b :: l2) [] s) as E1.
  cbn in E1. rewrite E1 by done.
  erewrite while_loop_step; cycle 1.
  - lia.
  - subst fuel. rewrite length_app. cbn. lia.
  - eapply loop_body_blank; [|done].
    by rewrite lookup_app_r, Nat.sub_diag by lia.
  - pose proof (while_loop_stream l2 d2 H2 fuel (l1 ++ [b]) [] d1 s) as E2.
    rewrite app_nil_r, <- app_assoc, length_app in E2. cbn in E2.
    rewrite E2; cycle 1.
    { subst fuel. rewrite length_app. cbn. lia. }
    apply while_loop_exit. rewrite length_app. cbn. lia.
Qed.

(** C2 (amended): a blank line put at a pair boundary of a well-formed
    stream, that is before an action line or after the last document
    line, changes neither the records nor what is printed. *)
Theorem blank_line_at_pair_boundary l1 d1 l2 d2 b s :
  well_formed_stream l1 d1 -> well_formed_stream l2 d2 -> blank b ->
  parse_lines (l1 ++ b :: l2) s = parse_lines (l1 ++ l2) s /\
  parse_lines (l1 ++ l2) s = (Ret (d1 ++ d2), s).
Proof.
  intros H1 H2 Hb.
  rewrite (parse_lines_blank_between l1 d1 l2 d2) by done.
  by rewrite (parse_lines_stream (l1 ++ l2) (d1 ++ d2))
    by by apply well_formed_stream_app.
Qed.

(** *** Termination *)

(** C3: the loop terminates on every list of lines.  Each iteration
    inside the bounds advances the cursor by one or two lines, or leaves
    the loop with an exception; when the document line after a valid
    action line does not parse, no record is added and the cursor
    advances by one; so one iteration per line is enough fuel, more fuel
    changes nothing, and the run never diverges. *)
Theorem parse_lines_terminates lines :
  (forall i docs s,
      (i < length lines)%nat ->
      (exists i' docs' s',
          loop_body lines (i, docs) s = (Ret (i', docs'), s') /\
          (i < i' <= i + 2)%nat) \/
      loop_body lines (i, docs) s = (Raise AttributeError, s)) /\
  (forall i docs line v next s,
      lines !! i = Some line -> ~ blank line ->
      json_loads (str_strip line) = Some v ->
      lines !! (i + 1)%nat = Some next ->
      json_loads (str_strip next) = None ->
      loop_body lines (i, docs) s
      = (Ret (i + 1, docs)%nat, log s (WarnInvalidJson (i + 1)))) /\
  (forall fuel s,
      (length lines <= fuel)%nat ->
      while_loop fuel lines (0%nat, []) s = parse_lines lines s) /\
  (forall s, fst (parse_lines lines s) <> Diverge) /\
  (forall filename s, returns (parse_ndjson_for_bulk filename s)).
Proof.
  split_and!.
  - intros i docs s Hlt.
    destruct (loop_body_cases lines i docs s Hlt)
      as [(i' & docs' & s' & E & Hi' & _)|E]; [left|right]; eauto 10.
  - intros. by eapply loop_body_bad_doc.
  - intros fuel s Hf. apply while_loop_enough; lia.
  - intros s. unfold parse_lines.
    by edestruct (while_loop_ends (length lines) lines 0 [] s)
      as [(docs & s1 & ->)|(s1 & ->)]; [lia| |].
  - apply parse_ndjson_for_bulk_returns.
Qed.

(** *** Malformed action lines *)

(** C4: when the line under the cursor is not blank and does not parse,
    the iteration prints the warning with the 1-based number of that
    line, adds no record and moves the cursor to the next line, on which
    the loop goes on. *)
Theorem malformed_action_line_skipped fuel lines i docs line s :
  lines !! i = Some line -> ~ blank line ->
  json_loads (str_strip line) = None ->
  loop_body lines (i, docs) s
  = (Ret (i + 1, docs)%nat, log s (WarnInvalidJson (i + 1))) /\
  while_loop (S fuel) lines (i, docs) s
  = while_loop fuel lines (i + 1, docs)%nat (log s (WarnInvalidJson (i + 1))).
Proof.
  intros Hi Hb Hl.
  pose proof (loop_body_bad_action lines i docs line s Hi Hb Hl) as E.
  split; [done|].
  rewrite while_loop_unfold. cbn [fst snd].
  rewrite bool_decide_eq_true_2 by by eapply lookup_lt_Some.
  unfold bind. by rewrite E.
Qed.

(** *** A trailing action line *)

Lemma parse_lines_trailing_action lines docs a v s :
  well_formed_stream lines docs -> ~ blank a ->
  json_loads (str_strip a) = Some v ->
  parse_lines (lines ++ [a]) s
  = (Ret docs, log s (WarnMissingDoc (length lines + 1))).
Proof.
  intros H Hb Ha. unfold parse_lines.
  set (fuel := length (lines ++ [a])).
  pose proof (while_loop_stream lines docs H fuel [] [a] [] s) as E.
  cbn in E. rewrite E by done.
  erewrite while_loop_step; cycle 1.
  - lia.
  - subst fuel. rewrite length_app. cbn. lia.
  - eapply loop_body_orphan; [|done..|].
    + by rewrite lookup_app_r, Nat.sub_diag by lia.
    + rewrite length_app. cbn. lia.
  - apply while_loop_exit. rewrite length_app. cbn. lia.
Qed.

Lemma while_loop_last_action fuel lines i docs a v s :
  lines !! i = Some a -> length lines = S i -> ~ blank a ->
  json_loads (str_strip a) = Some v ->
  while_loop (S fuel) lines (i, docs) s
  = (Ret docs, log s (WarnMissingDoc (i + 1))).
Proof.
  intros Hi Hlen Hb Ha.
  rewrite while_loop_unfold. cbn [fst snd].
  rewrite bool_decide_eq_true_2 by lia. unfold bind.
  erewrite loop_body_orphan by (done || lia).
  apply while_loop_exit. lia.
Qed.

(** C5: when the cursor is on the last line and that line parses, the
    loop prints one warning, which names the line, adds no record and
    returns the documents built so far.  So when the lines read are
    complete well-formed pairs followed by one last line that parses, the
    parser returns the records of the pairs and prints that one warning
    and no other. *)
Theorem trailing_action_line :
  (forall fuel lines i docs a v s,
      lines !! i = Some a -> length lines = S i -> ~ blank a ->
      json_loads (str_strip a) = Some v ->
      while_loop (S fuel) lines (i, docs) s
      = (Ret docs, log s (WarnMissingDoc (i + 1)))) /\
  (forall filename text w' lines docs a v s,
      read_text filename (world s) = (inr text, w') ->
      readlines text = lines ++ [a] ->
      well_formed_stream lines docs -> ~ blank a ->
      json_loads (str_strip a) = Some v ->
      exists s',
        parse_ndjson_for_bulk filename s = (Ret (Some docs), s') /\
        added s s' = [OpenFile filename;
                      Print (WarnMissingDoc (length lines + 1));
                      Print (MsgParsed (length docs) filename)] /\
        length (filter (fun ev => is_warning ev = true) (added s s'))
        = 1%nat).
Proof.
  split; [intros; by eapply while_loop_last_action|].
  intros filename text w' lines docs a v s Hr Hl Hs Hb Ha. eexists. split.
  - eapply parse_ndjson_for_bulk_ok; [done|].
    rewrite Hl. by eapply parse_lines_trailing_action.
  - unfold added, log. cbn. rewrite <- !app_assoc. cbn.
    rewrite drop_app_length. done.
Qed.

(** *** Action lines of another shape *)

(** C10 (amended): an action line that parses to an object whose [index]
    member is missing or is an object gives a record, whatever fields it
    has: the fields that are missing are null in the record, nothing is
    printed and the cursor moves past both lines. *)
Theorem object_action_without_fields lines i docs line v next body s :
  lines !! i = Some line -> ~ blank line ->
  json_loads (str_strip line) = Some v ->
  object_action v ->
  lines !! (i + 1)%nat = Some next ->
  json_loads (str_strip next) = Some body ->
  loop_body lines (i, docs) s
  = (Ret (i + 2, docs ++ [record_of v body])%nat, s) /\
  _source (record_of v body) = body /\
  (forall entries,
      v = JObj entries -> dict_get "index" entries = None ->
      _index (record_of v body) = JNull /\ _id (record_of v body) = JNull) /\
  (forall entries info,
      v = JObj entries -> dict_get "index" entries = Some (JObj info) ->
      (dict_get "_index" info = None -> _index (record_of v body) = JNull) /\
      (dict_get "_id" info = None -> _id (record_of v body) = JNull)).
Proof.
  intros Hi Hb Hl Ho Hn Hd. split_and!.
  - by eapply loop_body_object.
  - done.
  - intros entries -> E. unfold record_of. by rewrite E.
  - intros entries info -> E. unfold record_of, field. rewrite E. cbn.
    by split; intros ->.
Qed.

End Loop.

(** ** The simulated cluster *)

Section SimCluster.
Implicit Types (w : Sim.t) (es : client).

(** On the simulated cluster, online, [create_index] succeeds whether or
    not the index exists, and the index ends with the given mapping and
    no document. *)
Lemma sim_create_index es index_name mapping w tr :
  Sim.online w = true ->
  exists tr',
    @create_index Sim.t Sim.instance es index_name mapping
      {| trace := tr; world := w |}
    = (Ret true,
       {| trace := tr';
          world := Sim.with_indices w
                     (<[index_name := (mapping, [])]> (Sim.indices w)) |}).
Proof.
  intros Hon.
  unfold create_index, try_except, bind, perform, print, emit. cbn.
  unfold Sim.exists_, Sim.delete_, Sim.create, Sim.request. rewrite Hon.
  destruct (Sim.indices w !! index_name) as [x|] eqn:E.
  - rewrite bool_decide_eq_true_2 by done. cbn. rewrite Hon, E. cbn.
    rewrite Hon, lookup_delete_eq. cbn. eexists. do 2 f_equal.
    unfold Sim.with_indices. cbn. by rewrite insert_delete_eq.
  - rewrite bool_decide_eq_false_2 by (by intros [? ?]). cbn.
    rewrite Hon, E. cbn. by eexists.
Qed.

End SimCluster.

(** ** The components and the orchestrator *)

Section Components.
Context {lib : PyLib} {W : Type} {Wd : World W}.
Implicit Types (s : state W) (es : client).

Lemma env_falsy_unset_or_empty x : env_falsy x = true <-> unset_or_empty x.
Proof.
  unfold env_falsy, unset_or_empty, str_falsy. destruct x as [v|].
  - rewrite String.eqb_eq. split; [intros ->; by right|].
    by intros [|[= ->]].
  - split; [by left|done].
Qed.

Lemma bind_Ret {A B} (m : M W A) (k : A -> M W B) s a s1 :
  m s = (Ret a, s1) -> bind m k s = k a s1.
Proof. intros H. unfold bind. by rewrite H. Qed.

(** *** create_index *)

(** C7: [create_index] asks whether the index exists, deletes it when it
    does and then creates it with the mapping, each request once and in
    that order; it returns [True] when no request raised and [False],
    after the failed request and without another one, when one raised.
    On the simulated cluster, online, it returns [True] whether or not
    the index existed, and leaves the index with the given mapping and no
    document. *)
Theorem create_index_deletes_then_creates es index_name mapping s :
  let q_exists := Net es (IndicesExists index_name) in
  let q_delete := Net es (IndicesDelete index_name) in
  let q_create := Net es (IndicesCreate index_name mapping) in
  (forall e w1,
      es_indices_exists es index_name (world s) = (inl e, w1) ->
      create_index es index_name mapping s
      = (Ret false,
         {| trace := trace s ++ [q_exists; Print (MsgIndexFailed e)];
            world := w1 |})) /\
  (forall w1 e w2,
      es_indices_exists es index_name (world s) = (inr true, w1) ->
      es_indices_delete es index_name w1 = (inl e, w2) ->
      create_index es index_name mapping s
      = (Ret false,
         {| trace := trace s ++ [q_exists; Print (MsgIndexExists index_name);
                                 q_delete; Print (MsgIndexFailed e)];
            world := w2 |})) /\
  (forall w1 w2 r w3,
      es_indices_exists es index_name (world s) = (inr true, w1) ->
      es_indices_delete es index_name w1 = (inr tt, w2) ->
      es_indices_create es index_name mapping w2 = (r, w3) ->
      create_index es index_name mapping s
      = (Ret (succeeded r),
         {| trace := trace s ++ [q_exists; Print (MsgIndexExists index_name);
                                 q_delete; Print (MsgIndexDeleted index_name);
                                 q_create;
                                 Print (match r with
                                        | inr _ => MsgIndexCreated index_name
                                        | inl e => MsgIndexFailed e
                                        end)];
            world := w3 |})) /\
  (forall w1 r w2,
      es_indices_exists es index_name (world s) = (inr false, w1) ->
      es_indices_create es index_name mapping w1 = (r, w2) ->
      create_index es index_name mapping s
      = (Ret (succeeded r),
         {| trace := trace s ++ [q_exists; q_create;
                                 Print (match r with
                                        | inr _ => MsgIndexCreated index_name
                                        | inl e => MsgIndexFailed e
                                        end)];
            world := w2 |})) /\
  (forall (w : Sim.t) tr,
      Sim.online w = true ->
      exists tr',
        @create_index Sim.t Sim.instance es index_name mapping
          {| trace := tr; world := w |}
        = (Ret true,
           {| trace := tr';
              world := Sim.with_indices w
                         (<[index_name := (mapping, [])]>
                            (Sim.indices w)) |})).
Proof.
  cbn zeta. split_and!; [..|apply sim_create_index];
    unfold create_index, try_except, bind, perform, print, emit.
  - intros e w1 ->. cbn. by rewrite <- app_assoc.
  - intros w1 e w2 -> . cbn. intros ->. cbn. by rewrite <- !app_assoc.
  - intros w1 w2 r w3 ->. cbn. intros ->. cbn. intros ->.
    destruct r as [e|[]]; cbn; by rewrite <- !app_assoc.
  - intros w1 r w2 ->. cbn. intros ->.
    destruct r as [e|[]]; cbn; by rewrite <- !app_assoc.
Qed.

Lemma create_index_returns es index_name mapping s :
  returns (create_index es index_name mapping s).
Proof.
  unfold returns, create_index, try_except, bind, perform, print, emit.
  destruct (es_indices_exists es index_name (world s)) as [[e|[]] w1]; cbn;
    [by eexists _, _| |].
  - destruct (es_indices_delete es index_name w1) as [[e|[]] w2]; cbn;
      [by eexists _, _|].
    destruct (es_indices_create es index_name mapping w2) as [[e|[]] w3];
      cbn; by eexists _, _.
  - destruct (es_indices_create es index_name mapping w1) as [[e|[]] w3];
      cbn; by eexists _, _.
Qed.

(** *** connect_to_elasticsearch *)

Lemma connect_to_elasticsearch_returns host key s :
  returns (connect_to_elasticsearch host key s).
Proof.
  unfold returns, connect_to_elasticsearch, try_except, bind, perform,
    print, emit.
  destruct (es_new _ (world s)) as [[e|[]] w1]; cbn; [by eexists _, _|].
  destruct (es_ping _ w1) as [[e|[]] w2]; cbn; by eexists _, _.
Qed.

(** *** bulk_index_documents *)

Lemma print_failures_run (items : list json) s :
  print_failures items s
  = (Ret tt,
     {| trace := trace s ++ map (fun x => Print (MsgFailure x)) items;
        world := world s |}).
Proof.
  revert s. induction items as [|x items IH]; intros s; cbn.
  - rewrite app_nil_r. by destruct s.
  - unfold bind, print, emit. rewrite IH. cbn. by rewrite <- app_assoc.
Qed.

(** What [bulk_index_documents] does once the file is parsed into a
    non-empty list, by the answer of the bulk call. *)
Lemma bulk_index_documents_submit es filename s docs s1 :
  parse_ndjson_for_bulk filename s = (Ret (Some docs), s1) ->
  docs <> [] ->
  match es_bulk es docs 1000 (world s1) with
  | (inl e, w') =>
      bulk_index_documents es filename s
      = (Ret false,
         {| trace := trace s1 ++ [Net es (Bulk docs 1000);
                                  Print (MsgBulkError e)];
            world := w' |})
  | (inr (n, failed), w') =>
      exists s',
        bulk_index_documents es filename s = (Ret true, s') /\
        world s' = w' /\
        (failed <> [] ->
         Print (WarnBulkFailures (length failed)) ∈ added s1 s')
  end.
Proof.
  intros Hp Hne. unfold bulk_index_documents.
  rewrite (bind_Ret _ _ _ _ _ Hp).
  destruct docs as [|d docs]; [done|].
  unfold try_except, bind, perform.
  destruct (es_bulk es (d :: docs) 1000 (world s1)) as [[e|[n failed]] w'].
  - unfold print, emit. cbn. by rewrite <- app_assoc.
  - destruct failed as [|x failed].
    + cbn. eexists. split; [done|]. by split.
    + rewrite bool_decide_eq_false_2 by done.
      unfold print, emit. cbn. rewrite print_failures_run. cbn.
      destruct (bool_decide (5 < S (length failed))%nat); cbn;
        (eexists; split; [done|]; split; [done|]); intros _;
        unfold added; cbn; rewrite <- !app_assoc;
        rewrite drop_app_length; set_solver.
Qed.

Lemma bulk_index_documents_returns es filename s :
  returns (bulk_index_documents es filename s).
Proof.
  destruct (parse_ndjson_for_bulk_returns filename s) as (r & s1 & Hp).
  destruct r as [[|d docs]|].
  - unfold bulk_index_documents. rewrite (bind_Ret _ _ _ _ _ Hp).
    by eexists _, _.
  - pose proof (bulk_index_documents_submit es filename s _ s1 Hp) as H.
    destruct (es_bulk es (d :: docs) 1000 (world s1)) as [[e|[n failed]] w'].
    + rewrite H by done. by eexists _, _.
    + destruct H as (s' & -> & _); [done|]. by eexists _, _.
  - unfold bulk_index_documents. rewrite (bind_Ret _ _ _ _ _ Hp).
    by eexists _, _.
Qed.

(** *** read_mapping_file *)

Lemma read_mapping_file_not_found filename s w' :
  read_text filename (world s) = (inl FileNotFoundError, w') ->
  read_mapping_file filename s
  = (Exit 1,
     {| trace := trace s ++ [OpenFile filename;
                             Print (MsgMappingNotFound filename)];
        world := w' |}).
Proof.
  intros H. unfold read_mapping_file, try_except, bind, perform, print, emit.
  rewrite H. cbn. by rewrite <- app_assoc.
Qed.

Lemma read_mapping_file_invalid filename s text w' :
  read_text filename (world s) = (inr text, w') ->
  json_loads text = None ->
  read_mapping_file filename s
  = (Exit 1,
     {| trace := trace s ++ [OpenFile filename;
                             Print (MsgMappingInvalid filename)];
        world := w' |}).
Proof.
  intros H Hl.
  unfold read_mapping_file, try_except, bind, perform, print, emit, loads.
  rewrite H, Hl. cbn. by rewrite <- app_assoc.
Qed.

(** C8 (amended): the connector, the provisioner, the parser and the
    submitter return to their caller in every world: no exception
    escapes them and they do not end the process.  The mapping loader
    ends the process itself, with status 1, when the mapping file is
    missing or is not valid JSON. *)
Theorem components_return_except_mapping_loader :
  (forall host key s, returns (connect_to_elasticsearch host key s)) /\
  (forall es index_name mapping s,
      returns (create_index es index_name mapping s)) /\
  (forall filename s, returns (parse_ndjson_for_bulk filename s)) /\
  (forall es filename s, returns (bulk_index_documents es filename s)) /\
  (forall filename s w',
      read_text filename (world s) = (inl FileNotFoundError, w') ->
      fst (read_mapping_file filename s) = Exit 1) /\
  (forall filename s text w',
      read_text filename (world s) = (inr text, w') ->
      json_loads text = None ->
      fst (read_mapping_file filename s) = Exit 1).
Proof.
  split_and!.
  - apply connect_to_elasticsearch_returns.
  - apply create_index_returns.
  - apply parse_ndjson_for_bulk_returns.
  - apply bulk_index_documents_returns.
  - intros filename s w' H. by erewrite read_mapping_file_not_found.
  - intros filename s text w' H Hl. by erewrite read_mapping_file_invalid.
Qed.

(** *** main *)

(** C9: when [ES_HOST] or [API_KEY] is unset or empty, [main] ends the
    process with status 1 after its messages alone: no client is built,
    no request is sent, no file is opened and the world is as it was. *)
Theorem main_missing_environment s :
  unset_or_empty (os_getenv "ES_HOST" (world s)) \/
  unset_or_empty (os_getenv "API_KEY" (world s)) ->
  exists s',
    main s = (Exit 1, s') /\
    exit_status (fst (main s)) = Some 1 /\
    world s' = world s /\
    Forall (fun ev => is_network ev = false) (added s s') /\
    (added s s' = [Print MsgStart; Print MsgEsHostUnset;
                   Print MsgEsHostExample] \/
     added s s' = [Print MsgStart; Print MsgApiKeyUnset;
                   Print MsgApiKeyExample]).
Proof.
  intros H. unfold main, bind, getenv, print, emit, sys_exit. cbn.
  destruct (env_falsy (os_getenv "ES_HOST" (world s))) eqn:Eh; cbn.
  - eexists. split; [done|]. split; [done|]. split; [done|].
    unfold added. cbn. rewrite <- !app_assoc, drop_app_length. cbn.
    split; [by repeat constructor|by left].
  - destruct H as [H|H]; [apply env_falsy_unset_or_empty in H; congruence|].
    apply env_falsy_unset_or_empty in H. rewrite H. cbn.
    eexists. split; [done|]. split; [done|]. split; [done|].
    unfold added. cbn. rewrite <- !app_assoc, drop_app_length. cbn.
    split; [by repeat constructor|by right].
Qed.

End Components.

(** ** The bulk helper on the simulated cluster *)

Section SimBulk.
Implicit Types (ix : gmap string (json * list doc)) (d : doc).

Lemma sim_accepts_insert ix name x y d :
  ix !! name = Some x ->
  Sim.accepts (<[name := y]> ix) d = Sim.accepts ix d.
Proof.
  intros Hx. unfold Sim.accepts. destruct (_index d); try done.
  apply bool_decide_ext. destruct (decide (name = s)) as [<-|Hne].
  - rewrite lookup_insert_eq, Hx. split; eauto.
  - by rewrite lookup_insert_ne.
Qed.

(** Storing a list of actions keeps the set of indices, and no item
    fails exactly when every action is accepted. *)
Lemma sim_store_spec actions : forall ix n failed ix',
  Sim.store actions ix = (n, failed, ix') ->
  (forall d, Sim.accepts ix' d = Sim.accepts ix d) /\
  (failed = [] <-> Forall (fun d => Sim.accepts ix d = true) actions).
Proof.
  induction actions as [|a rest IH]; intros ix n failed ix' H; cbn in H.
  { injection H as <- <- <-. split; [done|]. split; [constructor|done]. }
  assert (Sim.accepts ix a = false ->
          (let '(n0, f0, ix0) := Sim.store rest ix in
           (n0, Sim.failed_item a :: f0, ix0)) = (n, failed, ix') ->
          (forall d, Sim.accepts ix' d = Sim.accepts ix d) /\
          (failed = [] <-> Forall (fun d => Sim.accepts ix d = true) (a :: rest)))
    as Hrefused.
  { intros Ha E.
    destruct (Sim.store rest ix) as [[n0 f0] ix0] eqn:Es.
    injection E as <- <- <-. destruct (IH _ _ _ _ Es) as [Hd _].
    split; [done|]. split; [done|].
    intros Hall. apply Forall_cons in Hall as [Hacc _]. congruence. }
  destruct (_index a) as [| | | |name| |] eqn:Ei;
    try (apply Hrefused; [unfold Sim.accepts; by rewrite Ei|done]).
  destruct (ix !! name) as [[m ds]|] eqn:El; cycle 1.
  { apply Hrefused; [|done]. unfold Sim.accepts. rewrite Ei, El.
    apply bool_decide_eq_false_2. by intros [? ?]. }
  destruct (Sim.store rest (<[name := (m, ds ++ [a])]> ix))
    as [[n0 f0] ix0] eqn:Es.
  injection H as <- <- <-. destruct (IH _ _ _ _ Es) as [Hd Hf].
  assert (forall d, Sim.accepts (<[name := (m, ds ++ [a])]> ix) d
                    = Sim.accepts ix d) as Hins
      by (intros d; by eapply sim_accepts_insert).
  split; [intros d; by rewrite Hd, Hins|].
  rewrite Hf, Forall_cons. split.
  - intros Hall. split.
    + unfold Sim.accepts. rewrite Ei, El. apply bool_decide_eq_true_2. eauto.
    + eapply Forall_impl; [exact Hall|].
      intros d Hacc. cbn beta in *. by rewrite <- Hins.
  - intros [_ Hall]. eapply Forall_impl; [exact Hall|].
    intros d Hacc. cbn beta in *. by rewrite Hins.
Qed.

(** One refused action anywhere in the request makes the helper raise. *)
Lemma sim_send_refused fuel : forall size actions ix,
  (1 <= size)%nat -> (length actions <= fuel)%nat ->
  Exists (fun d => Sim.accepts ix d = false) actions ->
  exists ix',
    Sim.send fuel size actions ix = (inl (PyException "BulkIndexError"), ix').
Proof.
  induction fuel as [|fuel IH]; intros size actions ix Hs Hf Hex.
  { destruct actions; [by apply Exists_nil in Hex|cbn in Hf; lia]. }
  destruct actions as [|a rest]; [by apply Exists_nil in Hex|].
  cbn [Sim.send].
  destruct (Sim.store (take size (a :: rest)) ix) as [[n failed] ix1] eqn:Es.
  destruct (sim_store_spec _ _ _ _ _ Es) as [Hd Hall].
  destruct failed as [|x failed]; [|by eexists].
  rewrite <- (take_drop size (a :: rest)) in Hex.
  apply Exists_app in Hex as [Hex|Hex].
  { apply Exists_exists in Hex as (d & Hin & Hd').
    pose proof (proj1 Hall eq_refl) as Hacc.
    rewrite Forall_forall in Hacc. specialize (Hacc d Hin). congruence. }
  destruct (IH size (drop size (a :: rest)) ix1 Hs) as [ix' E].
  - rewrite length_drop. cbn in *. lia.
  - eapply Exists_impl; [exact Hex|].
    intros d Hacc. cbn beta in *. by rewrite Hd.
  - rewrite E. by eexists.
Qed.

Lemma sim_bulk_refused (w : Sim.t) (es : client) actions chunk_size :
  Sim.online w = true ->
  Exists (fun d => Sim.accepts (Sim.indices w) d = false) actions ->
  exists w',
    Sim.bulk es actions chunk_size w
    = (inl (PyException "BulkIndexError"), w').
Proof.
  intros Hon Hex. unfold Sim.bulk, Sim.request. rewrite Hon.
  destruct (sim_send_refused (length actions)
              (Nat.max 1 (Z.to_nat chunk_size)) actions (Sim.indices w))
    as [ix' E]; [lia|lia|done|].
  rewrite E. by eexists.
Qed.

(** C6: the claim fails on the code where a record is refused.  The bulk
    helper, called with its defaults, raises when the cluster refuses an
    action, so [bulk_index_documents] takes its handler: it prints the
    error, prints no report of the failed items, and returns [False].  On
    the two-pair example sent to a cluster without the index [a] the
    result is [False] and the trace is the one given. *)
Theorem bulk_index_documents_refused_record_fails :
  (forall (w : Sim.t) (es : client) (docs : list doc) (chunk_size : Z),
      Sim.online w = true ->
      Exists (fun d => Sim.accepts (Sim.indices w) d = false) docs ->
      exists w',
        @es_bulk Sim.t Sim.instance es docs chunk_size w
        = (inl (PyException "BulkIndexError"), w')) /\
  (forall (lib : PyLib) (es : client) filename (s s1 : state Sim.t) docs,
      @parse_ndjson_for_bulk lib Sim.t Sim.instance filename s
      = (Ret (Some docs), s1) ->
      Sim.online (world s1) = true ->
      Exists (fun d => Sim.accepts (Sim.indices (world s1)) d = false) docs ->
      exists w',
        @bulk_index_documents lib Sim.t Sim.instance es filename s
        = (Ret false,
           {| trace := trace s1
                       ++ [Net es (Bulk docs 1000);
                           Print (MsgBulkError (PyException "BulkIndexError"))];
              world := w' |})) /\
  (let w := Example.bulk_world [Example.action1; Example.body1;
                                Example.action2; Example.body2] in
   let docs := [Example.record1; Example.record2] in
   @bulk_index_documents Reference.python Sim.t Sim.instance
     Example.es Example.bulk_file (Example.start w)
   = (Ret false,
      {| trace := [OpenFile Example.bulk_file;
                   Print (MsgParsed 2 Example.bulk_file);
                   Net Example.es (Bulk docs 1000);
                   Print (MsgBulkError (PyException "BulkIndexError"))];
         world := w |})).
Proof.
  split_and!.
  - intros w es docs chunk_size Hon Hex. by apply sim_bulk_refused.
  - intros lib es filename s s1 docs Hp Hon Hex.
    assert (docs <> []) as Hne by (intros ->; by apply Exists_nil in Hex).
    destruct (sim_bulk_refused (world s1) es docs 1000 Hon Hex) as [w' E].
    pose proof (@bulk_index_documents_submit lib Sim.t Sim.instance es
                  filename s docs s1 Hp Hne) as H.
    change (@es_bulk Sim.t Sim.instance es docs 1000 (world s1))
      with (Sim.bulk es docs 1000 (world s1)) in H.
    rewrite E in H. by exists w'.
  - by vm_compute.
Qed.

End SimBulk.

(** ** The claims on concrete inputs *)

(** C1: when the lines of the file are well-formed pairs only, the parser
    returns the records of the pairs, one per pair and in the order of the
    file, each with the [_index] and [_id] of its action line and the
    parsed document line; it prints nothing but the final count.  On the
    two-pair example it returns the two records of the example. *)
Theorem parse_ndjson_for_bulk_well_formed :
  (forall (lib : PyLib) (W : Type) (Wd : World W)
          filename text w' docs (s : state W),
      read_text filename (world s) = (inr text, w') ->
      well_formed_stream (readlines text) docs ->
      parse_ndjson_for_bulk filename s
      = (Ret (Some docs),
         {| trace := trace s ++ [OpenFile filename;
                                 Print (MsgParsed (length docs) filename)];
            world := w' |}) /\
      length (readlines text) = (2 * length docs)%nat) /\
  @parse_ndjson_for_bulk Reference.python Sim.t Sim.instance
    Example.bulk_file (Example.start Example.sim)
  = (Ret (Some [Example.record1; Example.record2]),
     {| trace := [OpenFile Example.bulk_file;
                  Print (MsgParsed 2 Example.bulk_file)];
        world := Example.sim |}).
Proof.
  split; [|by vm_compute].
  intros lib W Wd filename text w' docs s Hr Hs. split.
  - erewrite parse_ndjson_for_bulk_ok;
      [|done|by apply parse_lines_stream].
    unfold log. cbn. by rewrite <- app_assoc.
  - by apply well_formed_stream_length.
Qed.

Section Runs.
#[local] Existing Instance Reference.python.
#[local] Existing Instance Sim.instance.
Import Example.

Lemma action1_well_formed :
  well_formed_pair (action1 +:+ nl) (body1 +:+ nl) record1.
Proof.
  split; [intros H; vm_compute in H; discriminate H|].
  exists [("index", JObj [("_index", JStr "a"); ("_id", JStr "1")])],
    [("_index", JStr "a"); ("_id", JStr "1")], "a", "1",
    (JObj [("f", JInt 1)]).
  repeat split; vm_compute; reflexivity.
Defined.

Lemma action2_well_formed :
  well_formed_pair (action2 +:+ nl) (body2 +:+ nl) record2.
Proof.
  split; [intros H; vm_compute in H; discriminate H|].
  exists [("index", JObj [("_index", JStr "a"); ("_id", JStr "2")])],
    [("_index", JStr "a"); ("_id", JStr "2")], "a", "2",
    (JObj [("f", JInt 2)]).
  repeat split; vm_compute; reflexivity.
Defined.

Lemma two_pairs_well_formed :
  well_formed_stream (readlines two_pairs) [record1; record2].
Proof.
  change (readlines two_pairs) with (pair1 ++ pair2).
  apply wfs_pair; [exact action1_well_formed|].
  apply wfs_pair; [exact action2_well_formed|].
  apply wfs_nil.
Defined.

Lemma pair1_well_formed : well_formed_stream pair1 [record1].
Proof. apply wfs_pair; [exact action1_well_formed|apply wfs_nil]. Defined.

Lemma pair2_well_formed : well_formed_stream pair2 [record2].
Proof. apply wfs_pair; [exact action2_well_formed|apply wfs_nil]. Defined.

Lemma nl_blank : blank nl.
Proof. vm_compute. reflexivity. Defined.

Lemma action1_not_blank : ~ blank (action1 +:+ nl).
Proof. intros H. vm_compute in H. discriminate H. Defined.

Lemma garbage_not_blank : ~ blank garbage.
Proof. intros H. vm_compute in H. discriminate H. Defined.

Lemma parse_ndjson_for_bulk_well_formed_witness :
  read_text bulk_file (world (start sim)) = (inr two_pairs, sim) /\
  well_formed_stream (readlines two_pairs) [record1; record2] /\
  parse_ndjson_for_bulk bulk_file (start sim)
  = (Ret (Some [record1; record2]),
     {| trace := trace (start sim)
                 ++ [OpenFile bulk_file; Print (MsgParsed 2 bulk_file)];
        world := sim |}) /\
  length (readlines two_pairs) = (2 * 2)%nat.
Proof.
  assert (read_text bulk_file (world (start sim)) = (inr two_pairs, sim))
    as Hr by (vm_compute; reflexivity).
  split; [exact Hr|]. split; [exact two_pairs_well_formed|].
  exact (proj1 parse_ndjson_for_bulk_well_formed Reference.python Sim.t
           Sim.instance bulk_file two_pairs sim [record1; record2]
           (start sim) Hr two_pairs_well_formed).
Defined.

Lemma blank_line_at_pair_boundary_witness :
  well_formed_stream pair1 [record1] /\
  well_formed_stream pair2 [record2] /\
  blank nl /\
  parse_lines (pair1 ++ nl :: pair2) (start sim)
  = parse_lines (pair1 ++ pair2) (start sim) /\
  parse_lines (pair1 ++ pair2) (start sim)
  = (Ret ([record1] ++ [record2]), start sim).
Proof.
  split; [exact pair1_well_formed|]. split; [exact pair2_well_formed|].
  split; [exact nl_blank|].
  exact (blank_line_at_pair_boundary pair1 [record1] pair2 [record2] nl
           (start sim) pair1_well_formed pair2_well_formed nl_blank).
Defined.

(** C2, as stated, fails: a blank line between an action line and its
    document line is taken for the document, the pair is lost and the
    document line is then read as an action line. *)
Lemma blank_line_inside_pair_counterexample :
  well_formed_stream pair1 [record1] /\
  blank nl /\
  parse_lines pair1 (start sim) = (Ret [record1], start sim) /\
  parse_lines [action1 +:+ nl; nl; body1 +:+ nl] (start sim)
  = (Ret [],
     {| trace := [Print (WarnInvalidJson 1); Print (WarnMissingDoc 3)];
        world := sim |}) /\
  fst (parse_lines [action1 +:+ nl; nl; body1 +:+ nl] (start sim))
  <> fst (parse_lines pair1 (start sim)).
Proof.
  split; [exact pair1_well_formed|]. split; [exact nl_blank|].
  split; [by vm_compute|]. split; [by vm_compute|].
  intros H. vm_compute in H. discriminate H.
Qed.

Lemma parse_lines_terminates_witness :
  let lines := [action1 +:+ nl; garbage] in
  (0 < length lines)%nat /\
  lines !! 0%nat = Some (action1 +:+ nl) /\
  ~ blank (action1 +:+ nl) /\
  json_loads (str_strip (action1 +:+ nl))
  = Some (JObj [("index", JObj [("_index", JStr "a"); ("_id", JStr "1")])]) /\
  lines !! 1%nat = Some garbage /\
  json_loads (str_strip garbage) = None /\
  (length lines <= 5)%nat /\
  ((exists i' docs' s',
       loop_body lines (0%nat, []) (start sim) = (Ret (i', docs'), s') /\
       (0 < i' <= 0 + 2)%nat) \/
   loop_body lines (0%nat, []) (start sim)
   = (Raise AttributeError, start sim)) /\
  loop_body lines (0%nat, []) (start sim)
  = (Ret (0 + 1, [])%nat, log (start sim) (WarnInvalidJson (0 + 1))) /\
  while_loop 5 lines (0%nat, []) (start sim) = parse_lines lines (start sim).
Proof.
  intros lines.
  assert (0 < length lines)%nat as H0 by (cbn; lia).
  assert (json_loads (str_strip (action1 +:+ nl))
          = Some (JObj [("index",
                         JObj [("_index", JStr "a"); ("_id", JStr "1")])]))
    as Ha by (vm_compute; reflexivity).
  assert (json_loads (str_strip garbage) = None) as Hg
      by (vm_compute; reflexivity).
  assert (length lines <= 5)%nat as H5 by (cbn; lia).
  pose proof (parse_lines_terminates lines) as (T1 & T2 & T3 & _).
  split; [exact H0|]. split; [reflexivity|].
  split; [exact action1_not_blank|]. split; [exact Ha|].
  split; [reflexivity|]. split; [exact Hg|]. split; [exact H5|].
  split; [exact (T1 0%nat [] (start sim) H0)|].
  split; [exact (T2 0%nat [] _ _ _ (start sim) eq_refl action1_not_blank Ha
                    eq_refl Hg)|].
  exact (T3 5%nat (start sim) H5).
Defined.

Lemma malformed_action_line_skipped_witness :
  let lines := garbage :: pair1 in
  lines !! 0%nat = Some garbage /\
  ~ blank garbage /\
  json_loads (str_strip garbage) = None /\
  loop_body lines (0%nat, []) (start sim)
  = (Ret (0 + 1, [])%nat, log (start sim) (WarnInvalidJson (0 + 1))) /\
  while_loop 3 lines (0%nat, []) (start sim)
  = while_loop 2 lines (0 + 1, [])%nat
      (log (start sim) (WarnInvalidJson (0 + 1))).
Proof.
  intros lines.
  assert (json_loads (str_strip garbage) = None) as Hg
      by (vm_compute; reflexivity).
  split; [reflexivity|]. split; [exact garbage_not_blank|].
  split; [exact Hg|].
  exact (malformed_action_line_skipped 2 lines 0 [] garbage (start sim)
           eq_refl garbage_not_blank Hg).
Defined.

Lemma trailing_action_line_witness :
  let w := bulk_world [action1; body1; action2] in
  let text := unlines [action1; body1; action2] in
  read_text bulk_file (world (start w)) = (inr text, w) /\
  readlines text = pair1 ++ [action2 +:+ nl] /\
  well_formed_stream pair1 [record1] /\
  ~ blank (action2 +:+ nl) /\
  json_loads (str_strip (action2 +:+ nl))
  = Some (JObj [("index", JObj [("_index", JStr "a"); ("_id", JStr "2")])]) /\
  (pair1 ++ [action2 +:+ nl]) !! 2%nat = Some (action2 +:+ nl) /\
  length (pair1 ++ [action2 +:+ nl]) = 3%nat /\
  while_loop 1 (pair1 ++ [action2 +:+ nl]) (2%nat, [record1]) (start w)
  = (Ret [record1], log (start w) (WarnMissingDoc (2 + 1))) /\
  exists s',
    parse_ndjson_for_bulk bulk_file (start w) = (Ret (Some [record1]), s') /\
    added (start w) s'
    = [OpenFile bulk_file; Print (WarnMissingDoc (length pair1 + 1));
       Print (MsgParsed (length [record1]) bulk_file)] /\
    length (filter (fun ev => is_warning ev = true) (added (start w) s'))
    = 1%nat.
Proof.
  intros w text.
  assert (read_text bulk_file (world (start w)) = (inr text, w)) as Hr
      by (vm_compute; reflexivity).
  assert (readlines text = pair1 ++ [action2 +:+ nl]) as Hl
      by (vm_compute; reflexivity).
  assert (~ blank (action2 +:+ nl)) as Hb
      by (intros H; vm_compute in H; discriminate H).
  assert (json_loads (str_strip (action2 +:+ nl))
          = Some (JObj [("index",
                         JObj [("_index", JStr "a"); ("_id", JStr "2")])]))
    as Ha by (vm_compute; reflexivity).
  split; [exact Hr|]. split; [exact Hl|]. split; [exact pair1_well_formed|].
  split; [exact Hb|]. split; [exact Ha|].
  split; [reflexivity|]. split; [reflexivity|].
  split; [exact (proj1 trailing_action_line 0%nat (pair1 ++ [action2 +:+ nl])
                   2%nat [record1] (action2 +:+ nl) _ (start w)
                   eq_refl eq_refl Hb Ha)|].
  exact (proj2 trailing_action_line bulk_file text w pair1 [record1]
           (action2 +:+ nl) _ (start w) Hr Hl pair1_well_formed Hb Ha).
Defined.

Lemma object_action_without_fields_witness :
  let lines := ["{}" +:+ nl; body1 +:+ nl] in
  let v := JObj [] in
  let body := JObj [("f", JInt 1)] in
  lines !! 0%nat = Some ("{}" +:+ nl) /\
  ~ blank ("{}" +:+ nl) /\
  json_loads (str_strip ("{}" +:+ nl)) = Some v /\
  object_action v /\
  lines !! (0 + 1)%nat = Some (body1 +:+ nl) /\
  json_loads (str_strip (body1 +:+ nl)) = Some body /\
  loop_body lines (0%nat, []) (start sim)
  = (Ret (0 + 2, [] ++ [record_of v body])%nat, start sim) /\
  record_of v body = {| _index := JNull; _id := JNull; _source := body |}.
Proof.
  intros lines v body.
  assert (~ blank ("{}" +:+ nl)) as Hb
      by (intros H; vm_compute in H; discriminate H).
  assert (json_loads (str_strip ("{}" +:+ nl)) = Some v) as Hv
      by (vm_compute; reflexivity).
  assert (object_action v) as Ho by (exists []; split; reflexivity).
  assert (json_loads (str_strip (body1 +:+ nl)) = Some body) as Hd
      by (vm_compute; reflexivity).
  split; [reflexivity|]. split; [exact Hb|]. split; [exact Hv|].
  split; [exact Ho|]. split; [reflexivity|]. split; [exact Hd|].
  split; [|reflexivity].
  exact (proj1 (object_action_without_fields lines 0 [] _ v _ body (start sim)
                  eq_refl Hb Hv Ho eq_refl Hd)).
Defined.

(** C10, as stated, fails: an action line that parses to a bare number,
    followed by a document line that parses, gives no record; the loop is
    left by an [AttributeError] and the parser returns no sequence. *)
Lemma bare_number_action_counterexample :
  let lines := ["5" +:+ nl; "{}" +:+ nl] in
  json_loads (str_strip ("5" +:+ nl)) = Some (JInt 5) /\
  lacks_shape (JInt 5) /\
  json_loads (str_strip ("{}" +:+ nl)) = Some (JObj []) /\
  loop_body lines (0%nat, []) (start sim) = (Raise AttributeError, start sim) /\
  parse_ndjson_for_bulk bulk_file (start (bulk_world ["5"; "{}"]))
  = (Ret None,
     {| trace := [OpenFile bulk_file; Print (MsgNdjsonError AttributeError)];
        world := bulk_world ["5"; "{}"] |}).
Proof. cbn zeta. split_and!; by vm_compute. Qed.

Lemma create_index_deletes_then_creates_witness :
  let s := start sim in
  let w1 := Sim.with_indices sim ∅ in
  let w2 := Sim.with_indices sim {[ "a" := (JStr "m", []) ]} in
  es_indices_exists es "a" (world s) = (inr true, sim) /\
  es_indices_delete es "a" sim = (inr tt, w1) /\
  es_indices_create es "a" (JStr "m") w1 = (inr tt, w2) /\
  create_index es "a" (JStr "m") s
  = (Ret true,
     {| trace := [Net es (IndicesExists "a"); Print (MsgIndexExists "a");
                  Net es (IndicesDelete "a"); Print (MsgIndexDeleted "a");
                  Net es (IndicesCreate "a" (JStr "m"));
                  Print (MsgIndexCreated "a")];
        world := w2 |}).
Proof.
  intros s w1 w2.
  assert (es_indices_exists es "a" (world s) = (inr true, sim)) as He
      by (vm_compute; reflexivity).
  assert (es_indices_delete es "a" sim = (inr tt, w1)) as Hd
      by (vm_compute; reflexivity).
  assert (es_indices_create es "a" (JStr "m") w1 = (inr tt, w2)) as Hc
      by (vm_compute; reflexivity).
  split; [exact He|]. split; [exact Hd|]. split; [exact Hc|].
  exact (proj1 (proj2 (proj2 (create_index_deletes_then_creates es "a"
                                (JStr "m") s)))
           sim w1 (inr tt) w2 He Hd Hc).
Defined.

Lemma components_return_except_mapping_loader_witness :
  let s := start (world_of vars [] []) in
  read_text mapping_file (world s) = (inl FileNotFoundError, world s) /\
  fst (read_mapping_file mapping_file s) = Exit 1.
Proof.
  intros s.
  assert (read_text mapping_file (world s) = (inl FileNotFoundError, world s))
    as Hr by (vm_compute; reflexivity).
  split; [exact Hr|].
  pose proof (@components_return_except_mapping_loader Reference.python
                Sim.t Sim.instance) as (_ & _ & _ & _ & T & _).
  exact (T mapping_file s (world s) Hr).
Defined.

(** C8, as stated, fails: with no mapping file the mapping loader does not
    return to the orchestrator, it ends the process with status 1. *)
Lemma read_mapping_file_exits_counterexample :
  let s := start (world_of vars [] []) in
  read_mapping_file mapping_file s
  = (Exit 1,
     {| trace := [OpenFile mapping_file; Print (MsgMappingNotFound mapping_file)];
        world := world s |}) /\
  ~ returns (read_mapping_file mapping_file s).
Proof.
  intros s.
  assert (read_mapping_file mapping_file s
          = (Exit 1,
             {| trace := [OpenFile mapping_file;
                          Print (MsgMappingNotFound mapping_file)];
                world := world s |})) as E by (by vm_compute).
  split; [exact E|]. rewrite E. intros (a & s' & H). discriminate H.
Qed.

Lemma main_missing_environment_witness :
  let s := start (world_of [("ES_HOST", "https://localhost:9200")]
                    [(mapping_file, mapping_text); (bulk_file, two_pairs)] [])
  in
  (unset_or_empty (os_getenv "ES_HOST" (world s)) \/
   unset_or_empty (os_getenv "API_KEY" (world s))) /\
  exists s',
    main s = (Exit 1, s') /\
    exit_status (fst (main s)) = Some 1 /\
    world s' = world s /\
    Forall (fun ev => is_network ev = false) (added s s') /\
    (added s s' = [Print MsgStart; Print MsgEsHostUnset;
                   Print MsgEsHostExample] \/
     added s s' = [Print MsgStart; Print MsgApiKeyUnset;
                   Print MsgApiKeyExample]).
Proof.
  intros s.
  assert (unset_or_empty (os_getenv "ES_HOST" (world s)) \/
          unset_or_empty (os_getenv "API_KEY" (world s))) as H
      by (right; left; vm_compute; reflexivity).
  split; [exact H|]. exact (main_missing_environment s H).
Defined.

(** A whole run in the world of the example: [main] returns, so the exit
    status is 0, both indices are created and both records stored. *)
Example main_runs :
  let r := main (start sim) in
  fst r = Ret tt /\
  exit_status (fst r) = Some 0 /\
  Sim.indices (world (snd r)) !! "a" = Some (JNull, [record1; record2]) /\
  is_Some (Sim.indices (world (snd r)) !! "ubi_events") /\
  is_Some (Sim.indices (world (snd r)) !! "ubi_queries").
Proof. cbn zeta. split_and!; vm_compute; by eauto. Qed.

End Runs.

(** ** More on the parser loop *)

Section LoopAccounting.
Context {lib : PyLib} {W : Type} {Wd : World W}.
Implicit Types (lines : list string) (docs : list doc) (s : state W).

Lemma parser_warning_invalid n_lines i :
  (i < n_lines)%nat -> parser_warning n_lines (Print (WarnInvalidJson (i + 1))).
Proof. intros H. exists (i + 1)%nat. split; [by right|lia]. Qed.

Lemma parser_warning_missing n_lines i :
  (i < n_lines)%nat -> parser_warning n_lines (Print (WarnMissingDoc (i + 1))).
Proof. intros H. exists (i + 1)%nat. split; [by left|lia]. Qed.

Lemma parser_warning_is_print n_lines ev :
  parser_warning n_lines ev -> is_print ev = true.
Proof. by intros (n & [-> | ->] & _). Qed.

(** What one iteration inside the bounds consumes and produces: the lines
    it moves over pay for the records (two lines each) and the warnings
    (one line each) it adds; it changes nothing else. *)
Lemma loop_body_summary lines i docs s :
  (i < length lines)%nat ->
  exists o evs s',
    loop_body lines (i, docs) s = (o, s') /\
    trace s' = trace s ++ evs /\ world s' = world s /\
    Forall (parser_warning (length lines)) evs /\
    match o with
    | Ret (i', docs') =>
        (i < i' <= length lines)%nat /\
        (2 * length docs' + length evs <= 2 * length docs + (i' - i))%nat
    | Raise e => e = AttributeError /\ evs = []
    | _ => False
    end.
Proof.
  intros Hlt. destruct (lookup_lt_is_Some_2 lines i Hlt) as [line Hi].
  destruct (str_falsy (str_strip line)) eqn:Hb.
  { apply str_falsy_blank in Hb. eexists _, (@nil event), _.
    split; [by eapply loop_body_blank|]. rewrite app_nil_r.
    split_and!; try done; cbn; lia. }
  assert (~ blank line) as Hnb.
  { intros H%str_falsy_blank. congruence. }
  destruct (json_loads (str_strip line)) as [v|] eqn:Hl; cycle 1.
  { eexists _, (_ :: @nil event), _. split; [by eapply loop_body_bad_action|].
    split_and!; try done; try (cbn; lia).
    repeat constructor. by apply parser_warning_invalid. }
  destruct (decide (i + 1 < length lines)%nat) as [Hn|Hn]; cycle 1.
  { eexists _, (_ :: @nil event), _.
    split; [eapply loop_body_orphan; eauto; lia|].
    split_and!; try done; try (cbn; lia).
    repeat constructor. by apply parser_warning_missing. }
  destruct (lookup_lt_is_Some_2 lines (i + 1) Hn) as [next Hnext].
  destruct (json_loads (str_strip next)) as [body|] eqn:Hd; cycle 1.
  { eexists _, (_ :: @nil event), _. split; [by eapply loop_body_bad_doc|].
    split_and!; try done; try (cbn; lia).
    repeat constructor. by apply parser_warning_invalid. }
  destruct (object_action_dec v) as [Ho|Ho].
  - eexists _, (@nil event), _. split; [by eapply loop_body_object|].
    rewrite app_nil_r, length_app.
    split_and!; try done; cbn; lia.
  - eexists _, (@nil event), _. split; [by eapply loop_body_not_object|].
    rewrite app_nil_r. by split_and!.
Qed.

Lemma while_loop_summary fuel : forall lines i docs s,
  exists o evs s',
    while_loop fuel lines (i, docs) s = (o, s') /\
    trace s' = trace s ++ evs /\ world s' = world s /\
    Forall (parser_warning (length lines)) evs /\
    forall docs',
      o = Ret docs' ->
      (2 * length docs' + length evs
       <= 2 * length docs + (length lines - i))%nat.
Proof.
  induction fuel as [|fuel IH]; intros lines i docs s;
    rewrite while_loop_unfold; cbn [fst snd];
    (destruct (decide (i < length lines)%nat) as [Hlt|Hge];
     [rewrite bool_decide_eq_true_2 by done
     |rewrite bool_decide_eq_false_2 by done;
      eexists _, (@nil event), _; split; [done|]; rewrite app_nil_r;
      split_and!; [done..|]; intros ? [= <-]; cbn; lia]).
  - eexists _, (@nil event), _. split; [done|]. rewrite app_nil_r. by split_and!.
  - destruct (loop_body_summary lines i docs s Hlt)
      as (o & evs1 & s1 & E & Ht & Hw & Hf & Ho).
    unfold bind. rewrite E.
    destruct o as [[i' docs1]|e|c|]; [|destruct Ho as [-> ->]|done..].
    + destruct (IH lines i' docs1 s1) as (o2 & evs2 & s2 & E2 & Ht2 & Hw2 & Hf2 & Hb).
      eexists o2, (evs1 ++ evs2), s2. split; [done|].
      split; [by rewrite Ht2, Ht, app_assoc|]. split; [congruence|].
      split; [by apply Forall_app|].
      intros docs' ->. specialize (Hb docs' eq_refl).
      rewrite length_app. lia.
    + eexists _, (@nil event), _. split; [done|]. by split_and!.
Qed.

(** X1: however the loop ends, it only printed warnings, each naming a
    line of the file, and left the world alone; when it returns, every
    record has used two lines and every warning one: twice the number of
    records plus the number of warnings is at most the number of lines. *)
Theorem parse_lines_accounts_for_lines lines s :
  exists o evs s',
    parse_lines lines s = (o, s') /\
    trace s' = trace s ++ evs /\ world s' = world s /\
    Forall (parser_warning (length lines)) evs /\
    match o with
    | Ret docs => (2 * length docs + length evs <= length lines)%nat
    | Raise e => e = AttributeError
    | Exit _ | Diverge => False
    end.
Proof.
  unfold parse_lines.
  destruct (while_loop_summary (length lines) lines 0 [] s)
    as (o & evs & s' & E & Ht & Hw & Hf & Hb).
  exists o, evs, s'. split_and!; try done.
  pose proof (while_loop_ends (length lines) lines 0 [] s ltac:(lia))
    as [(docs & s1 & E1)|(s1 & E1)]; rewrite E in E1; injection E1 as -> ->.
  - specialize (Hb docs eq_refl). cbn in Hb. lia.
  - done.
Qed.

(** *** Files without pairs *)

Lemma while_loop_blanks bs : forall fuel pre acc s,
  Forall blank bs -> (length bs <= fuel)%nat ->
  while_loop fuel (pre ++ bs) (length pre, acc) s = (Ret acc, s).
Proof.
  induction bs as [|b bs IH]; intros fuel pre acc s Hb Hf.
  - apply while_loop_exit. rewrite app_nil_r. lia.
  - apply Forall_cons in Hb as [Hb Hbs]. cbn in Hf.
    erewrite while_loop_step; cycle 1.
    + rewrite length_app. cbn. lia.
    + rewrite length_app. cbn. lia.
    + eapply loop_body_blank; [|done].
      by rewrite lookup_app_r, Nat.sub_diag by lia.
    + specialize (IH fuel (pre ++ [b]) acc s Hbs).
      rewrite <- app_assoc, length_app in IH. cbn in IH. apply IH. lia.
Qed.

(** X2: a file that is empty or has blank lines only gives the empty
    list without any warning, and [bulk_index_documents] then reports
    that no document was found and returns [False] without a request. *)
Theorem blank_file_has_no_documents es filename text w' s :
  read_text filename (world s) = (inr text, w') ->
  Forall blank (readlines text) ->
  parse_ndjson_for_bulk filename s
  = (Ret (Some []),
     {| trace := trace s ++ [OpenFile filename;
                             Print (MsgParsed 0 filename)];
        world := w' |}) /\
  bulk_index_documents es filename s
  = (Ret false,
     {| trace := trace s ++ [OpenFile filename;
                             Print (MsgParsed 0 filename);
                             Print (MsgNoDocuments filename)];
        world := w' |}).
Proof.
  intros Hr Hb.
  assert (parse_ndjson_for_bulk filename s
          = (Ret (Some []),
             {| trace := trace s ++ [OpenFile filename;
                                     Print (MsgParsed 0 filename)];
                world := w' |})) as Hp.
  { erewrite parse_ndjson_for_bulk_ok;
      [|done|unfold parse_lines;
             by apply (while_loop_blanks (readlines text) _ [] [])].
    unfold log. cbn. by rewrite <- app_assoc. }
  split; [done|].
  unfold bulk_index_documents, bind. rewrite Hp.
  unfold print, emit. cbn. by rewrite <- app_assoc.
Qed.

(** *** Losing the records *)

(** X3: an action line that parses to something else than an object with
    an object (or no) [index], followed by a line that parses, ends the
    parser: it returns no sequence, the records of all the well-formed
    pairs before that line are lost, the lines after it are not read,
    and [bulk_index_documents] returns [False] without a request. *)
Theorem non_object_action_loses_all_records
        es filename text w' lines docs a v d body rest s :
  read_text filename (world s) = (inr text, w') ->
  readlines text = lines ++ a :: d :: rest ->
  well_formed_stream lines docs ->
  ~ blank a -> json_loads (str_strip a) = Some v -> ~ object_action v ->
  json_loads (str_strip d) = Some body ->
  let s' := {| trace := trace s ++ [OpenFile filename;
                                    Print (MsgNdjsonError AttributeError)];
               world := w' |} in
  parse_ndjson_for_bulk filename s = (Ret None, s') /\
  bulk_index_documents es filename s = (Ret false, s').
Proof.
  intros Hr Hl Hs Hb Ha Ho Hd s'.
  assert (parse_ndjson_for_bulk filename s = (Ret None, s')) as Hp.
  { assert (forall s0, parse_lines (readlines text) s0
                         = (Raise AttributeError, s0)) as Hrun.
    { intros s0. rewrite Hl. unfold parse_lines.
      set (fuel := length (lines ++ a :: d :: rest)).
      pose proof (while_loop_stream lines docs Hs fuel [] (a :: d :: rest) []
                    s0) as E.
      cbn in E. rewrite E by done.
      eapply while_loop_raise.
      - lia.
      - subst fuel. rewrite length_app. cbn. lia.
      - eapply (loop_body_not_object _ _ _ a v d body);
          [|done|done| |done|done].
        + by rewrite lookup_app_r, Nat.sub_diag by lia.
        + rewrite lookup_app_r by lia.
          by replace (length lines + 1 - length lines)%nat with 1%nat by lia. }
    erewrite parse_ndjson_for_bulk_aborted; [|done|apply Hrun].
    unfold s', log. cbn. by rewrite <- app_assoc. }
  split; [done|]. unfold bulk_index_documents, bind. by rewrite Hp.
Qed.

(** *** After a line that does not parse *)

(** X4: after an action line that does not parse the pairing is shifted
    by one line: when the next line, the document of the lost action, is
    not blank and parses to an object whose [index] member is missing or
    is itself an object, and the line after it parses too, the loop
    builds a record from these two, whose source is the line after, and
    goes on three lines further. *)
Theorem malformed_action_shifts_pairing
        fuel lines i docs bad d vd a va s :
  (length lines - i <= fuel)%nat ->
  lines !! i = Some bad -> ~ blank bad ->
  json_loads (str_strip bad) = None ->
  lines !! (i + 1)%nat = Some d -> ~ blank d ->
  json_loads (str_strip d) = Some vd -> object_action vd ->
  lines !! (i + 2)%nat = Some a ->
  json_loads (str_strip a) = Some va ->
  while_loop fuel lines (i, docs) s
  = while_loop fuel lines (i + 3, docs ++ [record_of vd va])%nat
      (log s (WarnInvalidJson (i + 1))) /\
  _source (record_of vd va) = va.
Proof.
  intros Hf Hi Hb Hl Hd Hdb Hdl Ho Ha Hal. split; [|done].
  apply lookup_lt_Some in Ha as Hlen.
  rewrite (while_loop_step fuel lines i docs s _ _ _ ltac:(lia) ltac:(lia)
             (loop_body_bad_action lines i docs bad s Hi Hb Hl)).
  replace (i + 2)%nat with (i + 1 + 1)%nat in Ha by lia.
  rewrite (while_loop_step fuel lines (i + 1) docs _ _ _ _
             ltac:(lia) ltac:(lia)
             (loop_body_object lines (i + 1) docs d vd a va _
                Hd Hdb Hdl Ha Hal Ho)).
  do 2 f_equal. lia.
Qed.

(** X5: a document line that does not parse, after an action line that
    parses, costs that pair and nothing else: the loop warns with the
    number of the action line, reads the document line again as an
    action line, which it skips (silently when blank, with a second
    warning otherwise), and goes on with the line after the pair. *)
Theorem unparsable_document_costs_one_pair fuel lines i docs a v d s :
  (length lines - i <= fuel)%nat ->
  lines !! i = Some a -> ~ blank a ->
  json_loads (str_strip a) = Some v ->
  lines !! (i + 1)%nat = Some d ->
  json_loads (str_strip d) = None ->
  while_loop fuel lines (i, docs) s
  = while_loop fuel lines (i + 2, docs)%nat
      (if str_falsy (str_strip d) then log s (WarnInvalidJson (i + 1))
       else log (log s (WarnInvalidJson (i + 1))) (WarnInvalidJson (i + 2))).
Proof.
  intros Hf Hi Hb Hl Hd Hdl.
  apply lookup_lt_Some in Hd as Hlen.
  rewrite (while_loop_step fuel lines i docs s _ _ _ ltac:(lia) ltac:(lia)
             (loop_body_bad_doc lines i docs a v d s Hi Hb Hl Hd Hdl)).
  destruct (str_falsy (str_strip d)) eqn:E.
  - apply str_falsy_blank in E.
    rewrite (while_loop_step fuel lines (i + 1) docs _ _ _ _
               ltac:(lia) ltac:(lia)
               (loop_body_blank lines (i + 1) docs d _ Hd E)).
    do 2 f_equal. lia.
  - assert (~ blank d) as Hnb by (intros H%str_falsy_blank; congruence).
    rewrite (while_loop_step fuel lines (i + 1) docs _ _ _ _
               ltac:(lia) ltac:(lia)
               (loop_body_bad_action lines (i + 1) docs d _ Hd Hnb Hdl)).
    by replace (i + 1 + 1)%nat with (i + 2)%nat by lia.
Qed.

End LoopAccounting.

(** ** The order of the operations *)

Section Orchestration.
Context {lib : PyLib} {W : Type} {Wd : World W}.
Implicit Types (s : state W) (es : client) (evs : list event).

Lemma effects_app evs1 evs2 : effects (evs1 ++ evs2) = effects evs1 ++ effects evs2.
Proof. apply filter_app. Qed.

Lemma effects_prints evs : Forall (fun ev => is_print ev = true) evs -> effects evs = [].
Proof.
  induction 1 as [|ev evs Hev _ IH]; [done|].
  unfold effects in *. rewrite filter_cons_False; [done|]. by rewrite Hev.
Qed.

Lemma added_app s s' evs : trace s' = trace s ++ evs -> added s s' = evs.
Proof. intros E. unfold added. by rewrite E, drop_app_length. Qed.

Lemma bind_Raise {A B} (m : M W A) (k : A -> M W B) s e s1 :
  m s = (Raise e, s1) -> bind m k s = (Raise e, s1).
Proof. intros H. unfold bind. by rewrite H. Qed.

Lemma bind_Exit {A B} (m : M W A) (k : A -> M W B) s c s1 :
  m s = (Exit c, s1) -> bind m k s = (Exit c, s1).
Proof. intros H. unfold bind. by rewrite H. Qed.

(** *** What each component does *)

Lemma connect_to_elasticsearch_run host key s :
  let es := {| hosts := [host]; api_key := key; request_timeout := 60 |} in
  exists o evs s',
    connect_to_elasticsearch host key s = (Ret o, s') /\
    trace s' = trace s ++ evs /\
    match o with
    | Some es' => es' = es /\ effects evs = [NewClient es; Net es Ping]
    | None => effects evs = [NewClient es] \/
              effects evs = [NewClient es; Net es Ping]
    end.
Proof.
  intros es.
  unfold connect_to_elasticsearch, try_except, bind, perform, print, emit.
  fold es.
  destruct (es_new es (world s)) as [[e|[]] w1]; cbn.
  { eexists _, _, _. split; [done|]. cbn. rewrite <- app_assoc.
    split; [done|]. by left. }
  destruct (es_ping es w1) as [[e|[]] w2]; cbn;
    eexists _, _, _; (split; [done|]); cbn; rewrite <- !app_assoc;
    (split; [done|]); cbn; auto.
Qed.

Lemma read_mapping_file_run filename s :
  exists o evs s',
    read_mapping_file filename s = (o, s') /\
    trace s' = trace s ++ evs /\
    effects evs = [OpenFile filename] /\
    match o with
    | Ret _ => True
    | Exit c => c = 1
    | Raise e => e <> FileNotFoundError /\ e <> JSONDecodeError
    | Diverge => False
    end.
Proof.
  unfold read_mapping_file, try_except, bind, perform, print, emit, loads.
  destruct (read_text filename (world s)) as [[e|text] w1]; cbn.
  - destruct e; cbn; eexists _, _, _; (split; [done|]); cbn;
      rewrite <- ?app_assoc; (split; [done|]); by cbn.
  - destruct (json_loads text) as [m|]; cbn;
      eexists _, _, _; (split; [done|]); cbn;
      rewrite <- ?app_assoc; (split; [done|]); by cbn.
Qed.

Lemma create_index_run es index_name mapping s :
  exists b del evs s',
    create_index es index_name mapping s = (Ret b, s') /\
    trace s' = trace s ++ evs /\
    let full :=
      Net es (IndicesExists index_name)
      :: (if del : bool then [Net es (IndicesDelete index_name)] else [])
      ++ [Net es (IndicesCreate index_name mapping)] in
    effects evs `prefix_of` full /\ (b = true -> effects evs = full).
Proof.
  unfold create_index, try_except, bind, perform, print, emit.
  destruct (es_indices_exists es index_name (world s)) as [[e|[]] w1]; cbn.
  - eexists false, false, _, _. split; [done|]. cbn. rewrite <- app_assoc.
    split; [done|]. cbn. split; [by eexists|done].
  - destruct (es_indices_delete es index_name w1) as [[e|[]] w2]; cbn.
    { eexists false, true, _, _. split; [done|]. cbn. rewrite <- !app_assoc.
      split; [done|]. cbn. split; [by eexists|done]. }
    destruct (es_indices_create es index_name mapping w2) as [[e|[]] w3]; cbn;
      eexists _, true, _, _; (split; [done|]); cbn; rewrite <- !app_assoc;
      (split; [done|]); by cbn.
  - destruct (es_indices_create es index_name mapping w1) as [[e|[]] w3]; cbn;
      eexists _, false, _, _; (split; [done|]); cbn; rewrite <- !app_assoc;
      (split; [done|]); by cbn.
Qed.

Lemma parse_ndjson_for_bulk_run filename s :
  exists o evs s',
    parse_ndjson_for_bulk filename s = (Ret o, s') /\
    trace s' = trace s ++ evs /\
    effects evs = [OpenFile filename].
Proof.
  unfold parse_ndjson_for_bulk, try_except, bind, perform, print, emit.
  destruct (read_text filename (world s)) as [[e|text] w1]; cbn.
  { destruct e; cbn; eexists _, _, _; (split; [done|]); cbn;
      rewrite <- ?app_assoc; (split; [done|]); by cbn. }
  unfold parse_lines.
  set (s0 := {| trace := trace s ++ [OpenFile filename]; world := w1 |}).
  destruct (while_loop_summary (length (readlines text)) (readlines text)
              0 [] s0) as (o & evs & s1 & E & Ht & _ & Hf & _).
  assert (effects evs = []) as He.
  { apply effects_prints. eapply Forall_impl; [exact Hf|].
    intros ev. apply parser_warning_is_print. }
  assert (forall m, trace s1 ++ [Print m]
                    = trace s ++ [OpenFile filename] ++ evs ++ [Print m]) as Hm.
  { intros m. rewrite Ht. subst s0. cbn. by rewrite <- !app_assoc. }
  assert (forall m, effects ([OpenFile filename] ++ evs ++ [Print m])
                    = [OpenFile filename]) as Hem.
  { intros m. rewrite !effects_app, He. done. }
  pose proof (while_loop_ends (length (readlines text)) (readlines text)
                0 [] s0 ltac:(lia)) as [(docs & s2 & E1)|(s2 & E1)];
    rewrite E in E1; injection E1 as -> ->; rewrite E; cbn;
    eexists _, _, _; (split; [done|]); cbn; (split; [apply Hm|]); apply Hem.
Qed.

(** When the bulk call returns, [bulk_index_documents] prints the report
    of the failures and the number of accepted documents, and returns
    [True]. *)
Lemma bulk_index_documents_report es filename s docs s1 n failed w' :
  parse_ndjson_for_bulk filename s = (Ret (Some docs), s1) ->
  docs <> [] ->
  es_bulk es docs 1000 (world s1) = (inr (n, failed), w') ->
  bulk_index_documents es filename s
  = (Ret true,
     {| trace := trace s1 ++ Net es (Bulk docs 1000) :: failure_report failed
                          ++ [Print (MsgIndexed n)];
        world := w' |}).
Proof.
  intros Hp Hne Hb. unfold bulk_index_documents.
  rewrite (bind_Ret _ _ _ _ _ Hp).
  destruct docs as [|d docs]; [done|].
  unfold try_except, bind, perform. rewrite Hb.
  destruct failed as [|x failed].
  - cbn. by rewrite <- app_assoc.
  - rewrite bool_decide_eq_false_2 by done.
    unfold print, emit. cbn [trace world]. rewrite print_failures_run.
    cbn [trace world]. unfold failure_report.
    destruct (bool_decide (5 < length (x :: failed))%nat); cbn;
      rewrite <- !app_assoc; cbn; do 2 f_equal; cbn;
      by rewrite <- ?app_assoc.
Qed.

Lemma failure_report_prints failed :
  Forall (fun ev => is_print ev = true) (failure_report failed).
Proof.
  destruct failed as [|x failed]; [constructor|].
  unfold failure_report. constructor; [done|].
  apply Forall_app. split.
  - apply Forall_forall. by intros ev (y & -> & _)%list_elem_of_fmap.
  - destruct (bool_decide _); by repeat constructor.
Qed.

Lemma bulk_index_documents_run es filename s :
  exists b evs s',
    bulk_index_documents es filename s = (Ret b, s') /\
    trace s' = trace s ++ evs /\
    ((b = false /\ effects evs = [OpenFile filename]) \/
     exists docs,
       docs <> [] /\
       effects evs = [OpenFile filename; Net es (Bulk docs 1000)]).
Proof.
  destruct (parse_ndjson_for_bulk_run filename s)
    as (o & evs1 & s1 & Hp & Ht & He).
  destruct o as [[|d docs]|].
  - unfold bulk_index_documents. rewrite (bind_Ret _ _ _ _ _ Hp).
    unfold bind, print, emit. cbn.
    eexists _, (evs1 ++ [_]), _. split; [done|]. cbn.
    split; [by rewrite Ht, <- app_assoc|]. left.
    by rewrite effects_app, He.
  - destruct (es_bulk es (d :: docs) 1000 (world s1))
      as [[e|[n failed]] w'] eqn:Hb.
    + pose proof (bulk_index_documents_submit es filename s _ s1 Hp
                    ltac:(done)) as H.
      rewrite Hb in H. rewrite H.
      eexists _, (evs1 ++ [_; _]), _. split; [done|]. cbn.
      split; [by rewrite Ht, <- app_assoc|]. right.
      exists (d :: docs). split; [done|]. by rewrite effects_app, He.
    + rewrite (bulk_index_documents_report es filename s _ s1 n failed w'
                 Hp ltac:(done) Hb).
      eexists _, (evs1 ++ _ :: failure_report failed ++ [_]), _.
      split; [done|]. cbn.
      split; [by rewrite Ht, <- app_assoc|]. right.
      exists (d :: docs). split; [done|].
      rewrite effects_app, He.
      change (?x :: ?l ++ ?r) with ([x] ++ l ++ r).
      rewrite !effects_app, (effects_prints (failure_report failed))
        by apply failure_report_prints.
      done.
  - unfold bulk_index_documents. rewrite (bind_Ret _ _ _ _ _ Hp).
    eexists _, evs1, _. split; [done|]. split; [done|]. by left.
Qed.

(** *** The orchestrator *)

Lemma main_connects s h k :
  os_getenv "ES_HOST" (world s) = Some h -> h <> "" ->
  os_getenv "API_KEY" (world s) = Some k -> k <> "" ->
  main s
  = bind (connect_to_elasticsearch h k)
      (fun r => match r with
                | None => sys_exit 1
                | Some es => after_connect es
                end)
      (log (log s MsgStart) (MsgConnecting h)).
Proof.
  intros Hh Hhe Hk Hke.
  assert (str_falsy h = false) as Fh by (by apply String.eqb_neq).
  assert (str_falsy k = false) as Fk by (by apply String.eqb_neq).
  unfold main, after_connect, getenv, log.
  unfold bind at 1. cbn. unfold bind at 1. cbn. rewrite Hh.
  unfold bind at 1. cbn. rewrite Hk. unfold bind at 1. cbn. rewrite Fh. cbn.
  unfold bind at 1. cbn. rewrite Fk. cbn. unfold bind at 1. cbn.
  by rewrite <- app_assoc.
Qed.

Lemma plan_tail es m del1 del2 docs :
  drop 2 (plan es m del1 del2 docs)
  = [OpenFile "index_mappings/ubi_events-mappings.json"]
    ++ [OpenFile "index_mappings/ubi_events-mappings.json"]
    ++ (Net es (IndicesExists "ubi_events")
        :: (if del1 then [Net es (IndicesDelete "ubi_events")] else [])
        ++ [Net es (IndicesCreate "ubi_events" m)])
    ++ (Net es (IndicesExists "ubi_queries")
        :: (if del2 then [Net es (IndicesDelete "ubi_queries")] else [])
        ++ [Net es (IndicesCreate "ubi_queries" m)])
    ++ [OpenFile "sample_documents/bulk_index.ndjson"; Net es (Bulk docs 1000)].
Proof. by destruct del1, del2. Qed.

Lemma after_connect_run es s :
  exists o evs s' m del1 del2 docs,
    after_connect es s = (o, s') /\
    trace s' = trace s ++ evs /\
    effects evs `prefix_of` drop 2 (plan es m del1 del2 docs) /\
    match o with
    | Ret _ =>
        effects evs = drop 2 (plan es m del1 del2 docs) /\ docs <> [] /\
        exists evs0, evs = evs0 ++ [Print MsgDone]
    | Exit c => c = 1
    | Raise e => e <> FileNotFoundError /\ e <> JSONDecodeError
    | Diverge => False
    end.
Proof.
  unfold after_connect.
  set (mf := "index_mappings/ubi_events-mappings.json").
  set (bf := "sample_documents/bulk_index.ndjson").
  destruct (read_mapping_file_run mf s) as (o1 & e1 & s1 & E1 & T1 & F1 & O1).
  destruct o1 as [m0|e|c|]; [|..|done].
  2:{ rewrite (bind_Raise _ _ _ _ _ E1).
      eexists _, e1, _, JNull, false, false, []. split; [done|].
      split; [done|]. rewrite F1, plan_tail. split; [by eexists|done]. }
  2:{ rewrite (bind_Exit _ _ _ _ _ E1).
      eexists _, e1, _, JNull, false, false, []. split; [done|].
      split; [done|]. rewrite F1, plan_tail. split; [by eexists|done]. }
  rewrite (bind_Ret _ _ _ _ _ E1).
  destruct (read_mapping_file_run mf s1) as (o2 & e2 & s2 & E2 & T2 & F2 & O2).
  assert (trace s2 = trace s ++ e1 ++ e2) as T2'
      by (by rewrite T2, T1, <- app_assoc).
  destruct o2 as [m|e|c|]; [|..|done].
  2:{ rewrite (bind_Raise _ _ _ _ _ E2).
      eexists _, (e1 ++ e2), _, JNull, false, false, []. split; [done|].
      split; [done|]. rewrite effects_app, F1, F2, plan_tail.
      split; [by eexists|done]. }
  2:{ rewrite (bind_Exit _ _ _ _ _ E2).
      eexists _, (e1 ++ e2), _, JNull, false, false, []. split; [done|].
      split; [done|]. rewrite effects_app, F1, F2, plan_tail.
      split; [by eexists|done]. }
  rewrite (bind_Ret _ _ _ _ _ E2).
  destruct (create_index_run es "ubi_events" m s2)
    as (b1 & del1 & e3 & s3 & E3 & T3 & P3 & Q3).
  cbn zeta in P3, Q3.
  assert (trace s3 = trace s ++ e1 ++ e2 ++ e3) as T3'
      by (by rewrite T3, T2', <- !app_assoc).
  rewrite (bind_Ret _ _ _ _ _ E3).
  destruct b1; cycle 1.
  { eexists _, (e1 ++ e2 ++ e3), _, m, del1, false, []. split; [done|].
    split; [done|]. rewrite !effects_app, F1, F2, plan_tail.
    split; [|done]. do 2 apply prefix_app. by apply prefix_app_r. }
  rewrite (bind_Ret (ret tt) _ s3 tt s3 eq_refl).
  specialize (Q3 eq_refl).
  destruct (create_index_run es "ubi_queries" m s3)
    as (b2 & del2 & e4 & s4 & E4 & T4 & P4 & Q4).
  cbn zeta in P4, Q4.
  assert (trace s4 = trace s ++ e1 ++ e2 ++ e3 ++ e4) as T4'
      by (by rewrite T4, T3', <- !app_assoc).
  rewrite (bind_Ret _ _ _ _ _ E4).
  destruct b2; cycle 1.
  { eexists _, (e1 ++ e2 ++ e3 ++ e4), _, m, del1, del2, []. split; [done|].
    split; [done|]. rewrite !effects_app, F1, F2, Q3, plan_tail.
    split; [|done]. do 3 apply prefix_app. by apply prefix_app_r. }
  rewrite (bind_Ret (ret tt) _ s4 tt s4 eq_refl).
  specialize (Q4 eq_refl).
  destruct (bulk_index_documents_run es bf s4)
    as (b3 & e5 & s5 & E5 & T5 & H5).
  assert (trace s5 = trace s ++ e1 ++ e2 ++ e3 ++ e4 ++ e5) as T5'
      by (by rewrite T5, T4', <- !app_assoc).
  rewrite (bind_Ret _ _ _ _ _ E5).
  destruct b3; cycle 1.
  { destruct H5 as [[_ H5]|(docs & Hne & H5)].
    - eexists _, (e1 ++ e2 ++ e3 ++ e4 ++ e5), _, m, del1, del2, [].
      split; [done|]. split; [done|].
      rewrite !effects_app, F1, F2, Q3, Q4, H5, plan_tail.
      split; [|done]. do 4 apply prefix_app. by eexists.
    - eexists _, (e1 ++ e2 ++ e3 ++ e4 ++ e5), _, m, del1, del2, docs.
      split; [done|]. split; [done|].
      rewrite !effects_app, F1, F2, Q3, Q4, H5, plan_tail. done. }
  destruct H5 as [[? _]|(docs & Hne & H5)]; [done|].
  rewrite (bind_Ret (ret tt) _ s5 tt s5 eq_refl).
  eexists _, (e1 ++ e2 ++ e3 ++ e4 ++ e5 ++ [Print MsgDone]), _,
    m, del1, del2, docs.
  split; [done|]. cbn.
  split; [by rewrite T5', <- !app_assoc|].
  assert (effects (e1 ++ e2 ++ e3 ++ e4 ++ e5 ++ [Print MsgDone])
          = drop 2 (plan es m del1 del2 docs)) as Heff.
  { rewrite !effects_app, F1, F2, Q3, Q4, H5, plan_tail.
    rewrite (effects_prints [Print MsgDone]) by by repeat constructor.
    by rewrite app_nil_r. }
  rewrite Heff. split; [done|]. split; [done|]. split; [done|].
  exists (e1 ++ e2 ++ e3 ++ e4 ++ e5). by rewrite <- !app_assoc.
Qed.

Lemma main_without_environment s :
  env_falsy (os_getenv "ES_HOST" (world s)) = true \/
  env_falsy (os_getenv "API_KEY" (world s)) = true ->
  exists evs s',
    main s = (Exit 1, s') /\ trace s' = trace s ++ evs /\ effects evs = [].
Proof.
  intros H. unfold main, bind, getenv, print, emit, sys_exit. cbn.
  destruct (env_falsy (os_getenv "ES_HOST" (world s))) eqn:Eh; cbn.
  - eexists _, _. split; [done|]. cbn. rewrite <- !app_assoc. by split.
  - destruct H as [H|H]; [done|]. rewrite H. cbn.
    eexists _, _. split; [done|]. cbn. rewrite <- !app_assoc. by split.
Qed.

Lemma env_not_falsy x : env_falsy x = false -> exists v, x = Some v /\ v <> "".
Proof.
  destruct x as [v|]; [|done]. intros H. exists v. split; [done|].
  by apply String.eqb_neq.
Qed.

(** Every run of [main]: what it did is a prefix of a plan, the whole of
    it when [main] returns. *)
Lemma main_run s :
  exists o evs s' es m del1 del2 docs,
    main s = (o, s') /\
    trace s' = trace s ++ evs /\
    effects evs `prefix_of` plan es m del1 del2 docs /\
    match o with
    | Ret _ =>
        effects evs = plan es m del1 del2 docs /\ docs <> [] /\
        exists evs0, evs = evs0 ++ [Print MsgDone]
    | Exit c => c = 1
    | Raise e => e <> FileNotFoundError /\ e <> JSONDecodeError
    | Diverge => False
    end.
Proof.
  set (none := {| hosts := []; api_key := ""; request_timeout := 0 |}).
  destruct (env_falsy (os_getenv "ES_HOST" (world s))) eqn:Eh.
  { destruct (main_without_environment s) as (evs & s' & E & T & F);
      [by left|].
    eexists _, evs, _, none, JNull, false, false, []. split; [done|].
    split; [done|]. rewrite F. split; [by eexists|done]. }
  destruct (env_falsy (os_getenv "API_KEY" (world s))) eqn:Ek.
  { destruct (main_without_environment s) as (evs & s' & E & T & F);
      [by right|].
    eexists _, evs, _, none, JNull, false, false, []. split; [done|].
    split; [done|]. rewrite F. split; [by eexists|done]. }
  apply env_not_falsy in Eh as (h & Hh & Hhe).
  apply env_not_falsy in Ek as (k & Hk & Hke).
  rewrite (main_connects s h k Hh Hhe Hk Hke).
  set (s0 := log (log s MsgStart) (MsgConnecting h)).
  assert (trace s0 = trace s ++ [Print MsgStart; Print (MsgConnecting h)])
    as T0 by (subst s0; cbn; by rewrite <- app_assoc).
  destruct (connect_to_elasticsearch_run h k s0)
    as (r & e1 & s1 & E1 & T1 & H1).
  cbn zeta in H1.
  set (es := {| hosts := [h]; api_key := k; request_timeout := 60 |}) in *.
  rewrite (bind_Ret _ _ _ _ _ E1).
  assert (forall l, effects (([Print MsgStart; Print (MsgConnecting h)] ++ e1)
                             ++ l) = effects e1 ++ effects l) as Hpre.
  { intros l. by rewrite !effects_app. }
  destruct r as [es'|].
  - destruct H1 as [-> H1].
    destruct (after_connect_run es s1)
      as (o & e2 & s2 & m & del1 & del2 & docs & E2 & T2 & P2 & O2).
    eexists o, (([Print MsgStart; Print (MsgConnecting h)] ++ e1) ++ e2), s2,
      es, m, del1, del2, docs.
    split; [done|].
    split; [by rewrite T2, T1, T0, <- !app_assoc|].
    rewrite Hpre, H1.
    change (plan es m del1 del2 docs)
      with ([NewClient es; Net es Ping] ++ drop 2 (plan es m del1 del2 docs)).
    split; [by apply prefix_app|].
    destruct o as [[]|e|c|]; try done.
    destruct O2 as (-> & Hne & evs0 & ->). split; [done|]. split; [done|].
    eexists. by rewrite app_assoc.
  - eexists _, ([Print MsgStart; Print (MsgConnecting h)] ++ e1), s1,
      es, JNull, false, false, [].
    split; [done|]. split; [by rewrite T1, T0, <- !app_assoc|].
    rewrite effects_app. cbn [app].
    split; [|done]. destruct H1 as [-> | ->]; by eexists.
Qed.

(** X6: whatever the world answers, [main] works in one order: the client
    and the ping, the mapping file (read twice), then for [ubi_events] and
    after it for [ubi_queries] the existence check, the deletion if the
    index exists and the creation, both with the same mapping, then the
    bulk file and one bulk request.  What a run did is always a beginning
    of that sequence. *)
Theorem main_follows_plan s :
  exists es m del1 del2 docs,
    effects (added s (snd (main s))) `prefix_of` plan es m del1 del2 docs.
Proof.
  destruct (main_run s)
    as (o & evs & s' & es & m & del1 & del2 & docs & E & T & P & _).
  exists es, m, del1, del2, docs. rewrite E. cbn [snd].
  by rewrite (added_app s s' evs T).
Qed.

(** X7: when [main] returns, it has carried out the whole sequence, its
    bulk request carried at least one document, and the last thing it
    printed is the message of success. *)
Theorem main_returns_after_whole_plan s s' :
  main s = (Ret tt, s') ->
  exists es m del1 del2 docs,
    effects (added s s') = plan es m del1 del2 docs /\
    docs <> [] /\
    last (trace s') = Some (Print MsgDone).
Proof.
  intros Hm.
  destruct (main_run s)
    as (o & evs & s1 & es & m & del1 & del2 & docs & E & T & _ & O).
  rewrite Hm in E. injection E as <- <-.
  destruct O as (Heff & Hne & evs0 & ->).
  exists es, m, del1, del2, docs.
  rewrite (added_app s s' _ T). split; [done|]. split; [done|].
  by rewrite T, app_assoc, last_snoc.
Qed.

(** X8: the process ends on every world, with status 0 or 1; the status
    is 0 only when [main] returned, and an exception that reaches the top
    is neither [FileNotFoundError] nor [JSONDecodeError]. *)
Theorem main_exit_status s :
  (exit_status (fst (main s)) = Some 0 \/
   exit_status (fst (main s)) = Some 1) /\
  (exit_status (fst (main s)) = Some 0 <-> fst (main s) = Ret tt) /\
  (forall e, fst (main s) = Raise e ->
             e <> FileNotFoundError /\ e <> JSONDecodeError).
Proof.
  destruct (main_run s)
    as (o & evs & s1 & es & m & del1 & del2 & docs & E & _ & _ & O).
  rewrite E. cbn [fst].
  destruct o as [[]|e|c|]; cbn; [| |subst c|done].
  - split; [by left|]. by split.
  - split; [by right|]. split; [by split|]. by intros ? [= <-].
  - split; [by right|]. by split.
Qed.

(** X9: when the connection is not made, because the client could not be
    built, because the ping raised or because it answered [False],
    [main] exits with status 1 at once: it has opened no file and sent
    nothing but, at most, the ping. *)
Theorem main_stops_when_not_connected s h k :
  os_getenv "ES_HOST" (world s) = Some h -> h <> "" ->
  os_getenv "API_KEY" (world s) = Some k -> k <> "" ->
  let es := {| hosts := [h]; api_key := k; request_timeout := 60 |} in
  let s0 := log (log s MsgStart) (MsgConnecting h) in
  fst (connect_to_elasticsearch h k s0) = Ret None ->
  main s = (Exit 1, snd (connect_to_elasticsearch h k s0)) /\
  (effects (added s (snd (main s))) = [NewClient es] \/
   effects (added s (snd (main s))) = [NewClient es; Net es Ping]).
Proof.
  intros Hh Hhe Hk Hke es s0 Hc.
  destruct (connect_to_elasticsearch_run h k s0)
    as (r & e1 & s1 & E1 & T1 & H1).
  cbn zeta in H1. fold es in H1. rewrite E1 in Hc |- *.
  injection Hc as ->. cbn [snd].
  rewrite (main_connects s h k Hh Hhe Hk Hke). fold s0.
  rewrite (bind_Ret _ _ _ _ _ E1). split; [done|].
  unfold sys_exit. cbn [snd].
  assert (trace s1 = trace s ++ [Print MsgStart; Print (MsgConnecting h)]
                       ++ e1) as T.
  { rewrite T1. subst s0. cbn. by rewrite <- !app_assoc. }
  rewrite (added_app s s1 _ T), effects_app. exact H1.
Qed.

(** X10: when the client is connected and the mapping file cannot be
    loaded, [main] ends there with status 1: by the exit of the loader
    when the file is missing or is not JSON, by the exception itself, which
    nothing catches, in the other cases.  No request about an index and
    no bulk request has been sent. *)
Theorem main_stops_without_mapping s h k es s1 :
  os_getenv "ES_HOST" (world s) = Some h -> h <> "" ->
  os_getenv "API_KEY" (world s) = Some k -> k <> "" ->
  connect_to_elasticsearch h k (log (log s MsgStart) (MsgConnecting h))
  = (Ret (Some es), s1) ->
  let r := read_mapping_file "index_mappings/ubi_events-mappings.json" s1 in
  (forall m, fst r <> Ret m) ->
  snd (main s) = snd r /\
  exit_status (fst (main s)) = Some 1 /\
  (forall e, fst r = Raise e -> fst (main s) = Raise e) /\
  effects (added s (snd (main s)))
  = [NewClient es; Net es Ping;
     OpenFile "index_mappings/ubi_events-mappings.json"].
Proof.
  intros Hh Hhe Hk Hke Hc r Hr.
  set (s0 := log (log s MsgStart) (MsgConnecting h)) in *.
  destruct (connect_to_elasticsearch_run h k s0)
    as (o & e1 & s1' & E1 & T1 & H1).
  rewrite Hc in E1. injection E1 as <- <-. destruct H1 as [-> H1].
  destruct (read_mapping_file_run "index_mappings/ubi_events-mappings.json" s1)
    as (o2 & e2 & s2 & E2 & T2 & F2 & O2).
  assert (trace s2 = trace s ++ ([Print MsgStart; Print (MsgConnecting h)]
                                 ++ e1) ++ e2) as T.
  { rewrite T2, T1. subst s0. cbn. by rewrite <- !app_assoc. }
  assert (effects (([Print MsgStart; Print (MsgConnecting h)] ++ e1) ++ e2)
          = [NewClient {| hosts := [h]; api_key := k; request_timeout := 60 |};
             Net {| hosts := [h]; api_key := k; request_timeout := 60 |} Ping;
             OpenFile "index_mappings/ubi_events-mappings.json"]) as Heff.
  { by rewrite !effects_app, H1, F2. }
  rewrite (main_connects s h k Hh Hhe Hk Hke). fold s0.
  rewrite (bind_Ret _ _ _ _ _ Hc). unfold after_connect.
  subst r. rewrite E2 in Hr |- *. cbn [fst snd] in *.
  destruct o2 as [m|e|c|]; [by destruct (Hr m)| | |done].
  - rewrite (bind_Raise _ _ _ _ _ E2). cbn [fst snd].
    rewrite (added_app s s2 _ T). split_and!; try done.
    by intros ? [= <-].
  - rewrite (bind_Exit _ _ _ _ _ E2). cbn [fst snd]. subst c.
    rewrite (added_app s s2 _ T). by split_and!.
Qed.

(** X11: once the mapping is loaded, [main] goes through the creation of
    [ubi_events], the creation of [ubi_queries] and the bulk load, and
    exits with status 1 right after the first of them that returns
    [False], without starting the next; when the three return [True] it
    prints the message of success and returns. *)
Theorem main_stops_at_first_failure s h k es m0 m s1 s2 s3 b1 s4 :
  os_getenv "ES_HOST" (world s) = Some h -> h <> "" ->
  os_getenv "API_KEY" (world s) = Some k -> k <> "" ->
  connect_to_elasticsearch h k (log (log s MsgStart) (MsgConnecting h))
  = (Ret (Some es), s1) ->
  read_mapping_file "index_mappings/ubi_events-mappings.json" s1
  = (Ret m0, s2) ->
  read_mapping_file "index_mappings/ubi_events-mappings.json" s2
  = (Ret m, s3) ->
  create_index es "ubi_events" m s3 = (Ret b1, s4) ->
  (b1 = false -> main s = (Exit 1, s4)) /\
  (b1 = true ->
   forall b2 s5,
     create_index es "ubi_queries" m s4 = (Ret b2, s5) ->
     (b2 = false -> main s = (Exit 1, s5)) /\
     (b2 = true ->
      forall b3 s6,
        bulk_index_documents es "sample_documents/bulk_index.ndjson" s5
        = (Ret b3, s6) ->
        (b3 = false -> main s = (Exit 1, s6)) /\
        (b3 = true -> main s = (Ret tt, log s6 MsgDone)))).
Proof.
  intros Hh Hhe Hk Hke Hc Hr1 Hr2 Hc1.
  rewrite (main_connects s h k Hh Hhe Hk Hke).
  rewrite (bind_Ret _ _ _ _ _ Hc). unfold after_connect.
  rewrite (bind_Ret _ _ _ _ _ Hr1), (bind_Ret _ _ _ _ _ Hr2).
  rewrite (bind_Ret _ _ _ _ _ Hc1).
  split; [by intros ->|]. intros -> b2 s5 Hc2.
  rewrite (bind_Ret (ret tt) _ s4 tt s4 eq_refl).
  rewrite (bind_Ret _ _ _ _ _ Hc2).
  split; [by intros ->|]. intros -> b3 s6 Hb.
  rewrite (bind_Ret (ret tt) _ s5 tt s5 eq_refl).
  rewrite (bind_Ret _ _ _ _ _ Hb).
  split; by intros ->.
Qed.

(** *** The connector and the mapping loader *)

(** X12: [connect_to_elasticsearch] builds a client for the one host with
    the key and a timeout of 60, pings once and never retries.  It
    returns that client exactly when the construction succeeded and the
    ping answered [True], and nothing otherwise; when the construction
    raises no ping is sent. *)
Theorem connect_to_elasticsearch_result host key s :
  let es := {| hosts := [host]; api_key := key; request_timeout := 60 |} in
  let r := connect_to_elasticsearch host key s in
  (fst r = Ret (Some es) \/ fst r = Ret None) /\
  (fst r = Ret (Some es) <->
   exists w1 w2,
     es_new es (world s) = (inr tt, w1) /\ es_ping es w1 = (inr true, w2)) /\
  (forall e w1,
      es_new es (world s) = (inl e, w1) ->
      r = (Ret None,
           {| trace := trace s ++ [NewClient es; Print (MsgConnectError e)];
              world := w1 |})) /\
  (effects (added s (snd r)) = [NewClient es] \/
   effects (added s (snd r)) = [NewClient es; Net es Ping]).
Proof.
  intros es r. subst r.
  unfold connect_to_elasticsearch, try_except, bind, perform, print, emit.
  fold es.
  destruct (es_new es (world s)) as [[e|[]] w1]; cbn.
  { rewrite <- app_assoc. cbn. split; [by right|]. split.
    - split; [done|]. by intros (? & ? & ? & _).
    - split; [by intros ? ? [= <- <-]|].
      left. unfold added. cbn. by rewrite drop_app_length. }
  destruct (es_ping es w1) as [[e|[]] w2] eqn:Ep; cbn;
    rewrite <- !app_assoc; cbn.
  - split; [by right|]. split.
    + split; [done|]. intros (? & ? & [= <-] & H). congruence.
    + split; [done|]. right. unfold added. cbn. by rewrite drop_app_length.
  - split; [by left|]. split.
    + split; [by eexists _, _|done].
    + split; [done|]. right. unfold added. cbn. by rewrite drop_app_length.
  - split; [by right|]. split.
    + split; [done|]. intros (? & ? & [= <-] & H). congruence.
    + split; [done|]. right. unfold added. cbn. by rewrite drop_app_length.
Qed.

(** X13: [read_mapping_file] returns what [json.loads] makes of the text
    of the file, unchanged.  It catches [FileNotFoundError] and
    [JSONDecodeError] only: any other exception raised while reading
    leaves it, after the file was opened and nothing printed. *)
Theorem read_mapping_file_result filename s :
  (forall text w' m,
      read_text filename (world s) = (inr text, w') ->
      json_loads text = Some m ->
      read_mapping_file filename s
      = (Ret m,
         {| trace := trace s ++ [OpenFile filename;
                                 Print (MsgMappingRead filename)];
            world := w' |})) /\
  (forall e w',
      read_text filename (world s) = (inl e, w') ->
      e <> FileNotFoundError -> e <> JSONDecodeError ->
      read_mapping_file filename s
      = (Raise e,
         {| trace := trace s ++ [OpenFile filename]; world := w' |})).
Proof.
  unfold read_mapping_file, try_except, bind, perform, print, emit, loads.
  split.
  - intros text w' m -> . cbn. intros ->. cbn. by rewrite <- app_assoc.
  - intros e w' -> Hn1 Hn2. cbn. by destruct e.
Qed.

(** *** The submitter *)

(** X17: [bulk_index_documents] returns [False] exactly when the parser
    gave no sequence, or an empty one, or the bulk call raised.  For an
    empty sequence it prints that no document was found and has sent
    nothing since the call.  When the bulk call raises it prints the error
    after the request; when it returns without failed items it prints the
    number of accepted documents and returns [True]. *)
Theorem bulk_index_documents_false_iff es filename s :
  let p := parse_ndjson_for_bulk filename s in
  let r := bulk_index_documents es filename s in
  (fst r = Ret false <->
   fst p = Ret None \/ fst p = Ret (Some []) \/
   exists docs e w',
     fst p = Ret (Some docs) /\ docs <> [] /\
     es_bulk es docs 1000 (world (snd p)) = (inl e, w')) /\
  (fst p = Ret (Some []) ->
   r = (Ret false, log (snd p) (MsgNoDocuments filename)) /\
   Forall (fun ev => is_network ev = false) (added s (snd r))) /\
  (forall docs e w',
      fst p = Ret (Some docs) -> docs <> [] ->
      es_bulk es docs 1000 (world (snd p)) = (inl e, w') ->
      r = (Ret false,
           {| trace := trace (snd p) ++ [Net es (Bulk docs 1000);
                                         Print (MsgBulkError e)];
              world := w' |})) /\
  (forall docs n w',
      fst p = Ret (Some docs) -> docs <> [] ->
      es_bulk es docs 1000 (world (snd p)) = (inr (n, []), w') ->
      r = (Ret true,
           {| trace := trace (snd p) ++ [Net es (Bulk docs 1000);
                                         Print (MsgIndexed n)];
              world := w' |})) /\
  returns r.
Proof.
  cbn zeta.
  destruct (parse_ndjson_for_bulk_returns filename s) as (o & s1 & Hp).
  rewrite Hp. cbn [fst snd].
  assert (forall docs, o = Some docs -> docs <> [] ->
            match es_bulk es docs 1000 (world s1) with
            | (inl e, w') =>
                bulk_index_documents es filename s
                = (Ret false,
                   {| trace := trace s1 ++ [Net es (Bulk docs 1000);
                                            Print (MsgBulkError e)];
                      world := w' |})
            | (inr (n, failed), w') =>
                fst (bulk_index_documents es filename s) = Ret true
            end) as Hsub.
  { intros docs -> Hne.
    pose proof (bulk_index_documents_submit es filename s docs s1 Hp Hne) as H.
    destruct (es_bulk es docs 1000 (world s1)) as [[e|[n failed]] w'].
    - done.
    - by destruct H as (s' & -> & _). }
  assert (o = Some [] ->
          bulk_index_documents es filename s
          = (Ret false, log s1 (MsgNoDocuments filename))) as Hempty.
  { intros ->. unfold bulk_index_documents.
    by rewrite (bind_Ret _ _ _ _ _ Hp). }
  split_and!.
  - split.
    + intros Hr. destruct o as [docs|]; [|by left]. right.
      destruct docs as [|d docs]; [by left|right].
      specialize (Hsub (d :: docs) eq_refl ltac:(done)).
      destruct (es_bulk es (d :: docs) 1000 (world s1))
        as [[e|[n failed]] w'] eqn:E.
      * eexists _, _, _. by rewrite E.
      * congruence.
    + intros [[= ->]|[[= ->]|(docs & e & w' & [= ->] & Hne & E)]].
      * unfold bulk_index_documents. by rewrite (bind_Ret _ _ _ _ _ Hp).
      * by rewrite Hempty.
      * specialize (Hsub docs eq_refl Hne). rewrite E in Hsub.
        by rewrite Hsub.
  - intros [= ->]. rewrite Hempty by done. split; [done|].
    apply offline_added. eapply offline_trans; [|apply offline_log].
    pose proof (parse_ndjson_for_bulk_offline filename s) as Hq.
    by rewrite Hp in Hq.
  - intros docs e w' [= ->] Hne E.
    specialize (Hsub docs eq_refl Hne). by rewrite E in Hsub.
  - intros docs n w' [= ->] Hne E.
    by rewrite (bulk_index_documents_report es filename s docs s1 n [] w'
                  Hp Hne E).
  - apply bulk_index_documents_returns.
Qed.

(** X15: whatever the file and the cluster, [bulk_index_documents] opens
    the file and sends at most one request, a bulk request with a
    non-empty list of documents and chunks of 1000; it returns [True]
    only after such a request. *)
Theorem bulk_index_documents_sends_one_request es filename s :
  let r := bulk_index_documents es filename s in
  (effects (added s (snd r)) = [OpenFile filename] /\ fst r = Ret false) \/
  exists docs b,
    docs <> [] /\ fst r = Ret b /\
    effects (added s (snd r)) = [OpenFile filename; Net es (Bulk docs 1000)].
Proof.
  intros r. subst r.
  destruct (bulk_index_documents_run es filename s)
    as (b & evs & s' & E & T & H).
  rewrite E. cbn [fst snd]. rewrite (added_app s s' evs T).
  destruct H as [[-> H]|(docs & Hne & H)]; [by left|].
  right. by exists docs, b.
Qed.

(** X16: when the bulk file cannot be read, the parser prints the error
    (a message of its own for a missing file) and returns no sequence, and
    [bulk_index_documents] returns [False] having sent nothing. *)
Theorem unreadable_file_sends_nothing es filename s e w' :
  read_text filename (world s) = (inl e, w') ->
  let s' :=
    {| trace := trace s
                ++ [OpenFile filename;
                    Print (match e with
                           | FileNotFoundError => MsgNdjsonNotFound filename
                           | _ => MsgNdjsonError e
                           end)];
       world := w' |} in
  parse_ndjson_for_bulk filename s = (Ret None, s') /\
  bulk_index_documents es filename s = (Ret false, s').
Proof.
  intros Hr s'.
  assert (parse_ndjson_for_bulk filename s = (Ret None, s')) as Hp.
  { unfold parse_ndjson_for_bulk, try_except, bind, perform, print, emit.
    rewrite Hr. subst s'. destruct e; cbn; by rewrite <- app_assoc. }
  split; [done|]. unfold bulk_index_documents.
  by rewrite (bind_Ret _ _ _ _ _ Hp).
Qed.

End Orchestration.

(** ** More concrete runs *)

Section MoreRuns.
#[local] Existing Instance Reference.python.
#[local] Existing Instance Sim.instance.
Import Example.

Lemma blank_file_has_no_documents_witness :
  let w := bulk_world [EmptyString; "  "] in
  let text := unlines [EmptyString; "  "] in
  read_text bulk_file (world (start w)) = (inr text, w) /\
  Forall blank (readlines text) /\
  parse_ndjson_for_bulk bulk_file (start w)
  = (Ret (Some []),
     {| trace := trace (start w)
                 ++ [OpenFile bulk_file; Print (MsgParsed 0 bulk_file)];
        world := w |}) /\
  bulk_index_documents es bulk_file (start w)
  = (Ret false,
     {| trace := trace (start w)
                 ++ [OpenFile bulk_file; Print (MsgParsed 0 bulk_file);
                     Print (MsgNoDocuments bulk_file)];
        world := w |}).
Proof.
  intros w text.
  assert (read_text bulk_file (world (start w)) = (inr text, w)) as Hr
      by (vm_compute; reflexivity).
  assert (Forall blank (readlines text)) as Hb
      by (repeat constructor; vm_compute; reflexivity).
  split; [exact Hr|]. split; [exact Hb|].
  exact (blank_file_has_no_documents es bulk_file text w (start w) Hr Hb).
Defined.

Lemma non_object_action_loses_all_records_witness :
  let ls := [action1; body1; "5"; "{}"; action2; body2] in
  let w := bulk_world ls in
  let s' := {| trace := trace (start w)
                        ++ [OpenFile bulk_file;
                            Print (MsgNdjsonError AttributeError)];
               world := w |} in
  read_text bulk_file (world (start w)) = (inr (unlines ls), w) /\
  readlines (unlines ls) = pair1 ++ ("5" +:+ nl) :: ("{}" +:+ nl) :: pair2 /\
  well_formed_stream pair1 [record1] /\
  ~ blank ("5" +:+ nl) /\
  json_loads (str_strip ("5" +:+ nl)) = Some (JInt 5) /\
  ~ object_action (JInt 5) /\
  json_loads (str_strip ("{}" +:+ nl)) = Some (JObj []) /\
  parse_ndjson_for_bulk bulk_file (start w) = (Ret None, s') /\
  bulk_index_documents es bulk_file (start w) = (Ret false, s').
Proof.
  intros ls w s'.
  assert (read_text bulk_file (world (start w)) = (inr (unlines ls), w)) as Hr
      by (vm_compute; reflexivity).
  assert (readlines (unlines ls)
          = pair1 ++ ("5" +:+ nl) :: ("{}" +:+ nl) :: pair2) as Hl
      by (vm_compute; reflexivity).
  assert (~ blank ("5" +:+ nl)) as Hb
      by (intros H; vm_compute in H; discriminate H).
  assert (json_loads (str_strip ("5" +:+ nl)) = Some (JInt 5)) as Ha
      by (vm_compute; reflexivity).
  assert (~ object_action (JInt 5)) as Ho
      by (intros (entries & H & _); discriminate H).
  assert (json_loads (str_strip ("{}" +:+ nl)) = Some (JObj [])) as Hd
      by (vm_compute; reflexivity).
  split; [exact Hr|]. split; [exact Hl|]. split; [exact pair1_well_formed|].
  split; [exact Hb|]. split; [exact Ha|]. split; [exact Ho|].
  split; [exact Hd|].
  exact (non_object_action_loses_all_records es bulk_file (unlines ls) w
           pair1 [record1] _ _ _ _ pair2 (start w)
           Hr Hl pair1_well_formed Hb Ha Ho Hd).
Defined.

Lemma malformed_action_shifts_pairing_witness :
  let lines := [garbage; body1 +:+ nl; action2 +:+ nl] in
  let vd := JObj [("f", JInt 1)] in
  let va := JObj [("index", JObj [("_index", JStr "a"); ("_id", JStr "2")])] in
  (length lines - 0 <= 3)%nat /\
  lines !! 0%nat = Some garbage /\ ~ blank garbage /\
  json_loads (str_strip garbage) = None /\
  lines !! (0 + 1)%nat = Some (body1 +:+ nl) /\ ~ blank (body1 +:+ nl) /\
  json_loads (str_strip (body1 +:+ nl)) = Some vd /\ object_action vd /\
  lines !! (0 + 2)%nat = Some (action2 +:+ nl) /\
  json_loads (str_strip (action2 +:+ nl)) = Some va /\
  while_loop 3 lines (0%nat, []) (start sim)
  = while_loop 3 lines (0 + 3, [] ++ [record_of vd va])%nat
      (log (start sim) (WarnInvalidJson (0 + 1))) /\
  record_of vd va = {| _index := JNull; _id := JNull; _source := va |}.
Proof.
  intros lines vd va.
  assert (length lines - 0 <= 3)%nat as Hf by (cbn; lia).
  assert (json_loads (str_strip garbage) = None) as Hg
      by (vm_compute; reflexivity).
  assert (~ blank (body1 +:+ nl)) as Hdb
      by (intros H; vm_compute in H; discriminate H).
  assert (json_loads (str_strip (body1 +:+ nl)) = Some vd) as Hd
      by (vm_compute; reflexivity).
  assert (object_action vd) as Ho by (eexists; split; reflexivity).
  assert (json_loads (str_strip (action2 +:+ nl)) = Some va) as Ha
      by (vm_compute; reflexivity).
  split; [exact Hf|]. split; [reflexivity|]. split; [exact garbage_not_blank|].
  split; [exact Hg|]. split; [reflexivity|]. split; [exact Hdb|].
  split; [exact Hd|]. split; [exact Ho|]. split; [reflexivity|].
  split; [exact Ha|]. split; [|reflexivity].
  exact (proj1 (malformed_action_shifts_pairing 3 lines 0 [] garbage _ vd _ va
                  (start sim) Hf eq_refl garbage_not_blank Hg eq_refl Hdb Hd
                  Ho eq_refl Ha)).
Defined.

Lemma unparsable_document_costs_one_pair_witness :
  let lines := [action1 +:+ nl; garbage] ++ pair2 in
  let v := JObj [("index", JObj [("_index", JStr "a"); ("_id", JStr "1")])] in
  (length lines - 0 <= 4)%nat /\
  lines !! 0%nat = Some (action1 +:+ nl) /\ ~ blank (action1 +:+ nl) /\
  json_loads (str_strip (action1 +:+ nl)) = Some v /\
  lines !! (0 + 1)%nat = Some garbage /\
  json_loads (str_strip garbage) = None /\
  while_loop 4 lines (0%nat, []) (start sim)
  = while_loop 4 lines (0 + 2, [])%nat
      (log (log (start sim) (WarnInvalidJson (0 + 1)))
         (WarnInvalidJson (0 + 2))).
Proof.
  intros lines v.
  assert (length lines - 0 <= 4)%nat as Hf by (cbn; lia).
  assert (json_loads (str_strip (action1 +:+ nl)) = Some v) as Ha
      by (vm_compute; reflexivity).
  assert (json_loads (str_strip garbage) = None) as Hg
      by (vm_compute; reflexivity).
  split; [exact Hf|]. split; [reflexivity|]. split; [exact action1_not_blank|].
  split; [exact Ha|]. split; [reflexivity|]. split; [exact Hg|].
  exact (unparsable_document_costs_one_pair 4 lines 0 [] _ v garbage
           (start sim) Hf eq_refl action1_not_blank Ha eq_refl Hg).
Defined.

Lemma main_returns_after_whole_plan_witness :
  let s' := snd (main (start sim)) in
  main (start sim) = (Ret tt, s') /\
  exists es m del1 del2 docs,
    effects (added (start sim) s') = plan es m del1 del2 docs /\
    docs <> [] /\
    last (trace s') = Some (Print MsgDone).
Proof.
  intros s'.
  assert (main (start sim) = (Ret tt, s')) as Hm by (vm_compute; reflexivity).
  split; [exact Hm|].
  exact (main_returns_after_whole_plan (start sim) s' Hm).
Defined.

Lemma main_stops_when_not_connected_witness :
  let s := start offline_sim in
  let h := "https://localhost:9200" in
  let s0 := log (log s MsgStart) (MsgConnecting h) in
  os_getenv "ES_HOST" (world s) = Some h /\ h <> "" /\
  os_getenv "API_KEY" (world s) = Some "secret" /\ "secret" <> "" /\
  fst (connect_to_elasticsearch h "secret" s0) = Ret None /\
  main s = (Exit 1, snd (connect_to_elasticsearch h "secret" s0)) /\
  (effects (added s (snd (main s))) = [NewClient es] \/
   effects (added s (snd (main s))) = [NewClient es; Net es Ping]).
Proof.
  intros s h s0.
  assert (os_getenv "ES_HOST" (world s) = Some h) as Hh
      by (vm_compute; reflexivity).
  assert (h <> "") as Hhe by discriminate.
  assert (os_getenv "API_KEY" (world s) = Some "secret") as Hk
      by (vm_compute; reflexivity).
  assert ("secret" <> "") as Hke by discriminate.
  assert (fst (connect_to_elasticsearch h "secret" s0) = Ret None) as Hc
      by (vm_compute; reflexivity).
  split; [exact Hh|]. split; [exact Hhe|]. split; [exact Hk|].
  split; [exact Hke|]. split; [exact Hc|].
  exact (main_stops_when_not_connected s h "secret" Hh Hhe Hk Hke Hc).
Defined.

Lemma main_stops_without_mapping_witness :
  let s := start (world_of vars [] []) in
  let h := "https://localhost:9200" in
  let s1 := snd (connect_to_elasticsearch h "secret"
                   (log (log s MsgStart) (MsgConnecting h))) in
  let r := read_mapping_file mapping_file s1 in
  os_getenv "ES_HOST" (world s) = Some h /\ h <> "" /\
  os_getenv "API_KEY" (world s) = Some "secret" /\ "secret" <> "" /\
  connect_to_elasticsearch h "secret" (log (log s MsgStart) (MsgConnecting h))
  = (Ret (Some es), s1) /\
  (forall m, fst r <> Ret m) /\
  snd (main s) = snd r /\
  exit_status (fst (main s)) = Some 1 /\
  effects (added s (snd (main s)))
  = [NewClient es; Net es Ping; OpenFile mapping_file].
Proof.
  intros s h s1 r.
  assert (os_getenv "ES_HOST" (world s) = Some h) as Hh
      by (vm_compute; reflexivity).
  assert (h <> "") as Hhe by discriminate.
  assert (os_getenv "API_KEY" (world s) = Some "secret") as Hk
      by (vm_compute; reflexivity).
  assert ("secret" <> "") as Hke by discriminate.
  assert (connect_to_elasticsearch h "secret"
            (log (log s MsgStart) (MsgConnecting h)) = (Ret (Some es), s1))
    as Hc by (vm_compute; reflexivity).
  assert (forall m, fst r <> Ret m) as Hr
      by (intros m H; vm_compute in H; discriminate H).
  destruct (main_stops_without_mapping s h "secret" es s1 Hh Hhe Hk Hke Hc Hr)
    as (T1 & T2 & _ & T4).
  split; [exact Hh|]. split; [exact Hhe|]. split; [exact Hk|].
  split; [exact Hke|]. split; [exact Hc|]. split; [exact Hr|].
  split; [exact T1|]. split; [exact T2|exact T4].
Defined.

Lemma main_stops_at_first_failure_witness :
  let s := start sim in
  let h := "https://localhost:9200" in
  let m := default JNull (json_loads mapping_text) in
  let s1 := snd (connect_to_elasticsearch h "secret"
                   (log (log s MsgStart) (MsgConnecting h))) in
  let s2 := snd (read_mapping_file mapping_file s1) in
  let s3 := snd (read_mapping_file mapping_file s2) in
  let s4 := snd (create_index es "ubi_events" m s3) in
  let s5 := snd (create_index es "ubi_queries" m s4) in
  let s6 := snd (bulk_index_documents es bulk_file s5) in
  os_getenv "ES_HOST" (world s) = Some h /\ h <> "" /\
  os_getenv "API_KEY" (world s) = Some "secret" /\ "secret" <> "" /\
  connect_to_elasticsearch h "secret" (log (log s MsgStart) (MsgConnecting h))
  = (Ret (Some es), s1) /\
  read_mapping_file mapping_file s1 = (Ret m, s2) /\
  read_mapping_file mapping_file s2 = (Ret m, s3) /\
  create_index es "ubi_events" m s3 = (Ret true, s4) /\
  create_index es "ubi_queries" m s4 = (Ret true, s5) /\
  bulk_index_documents es bulk_file s5 = (Ret true, s6) /\
  main s = (Ret tt, log s6 MsgDone).
Proof.
  intros s h m s1 s2 s3 s4 s5 s6.
  assert (os_getenv "ES_HOST" (world s) = Some h) as Hh
      by (vm_compute; reflexivity).
  assert (h <> "") as Hhe by discriminate.
  assert (os_getenv "API_KEY" (world s) = Some "secret") as Hk
      by (vm_compute; reflexivity).
  assert ("secret" <> "") as Hke by discriminate.
  assert (connect_to_elasticsearch h "secret"
            (log (log s MsgStart) (MsgConnecting h)) = (Ret (Some es), s1))
    as Hc by (vm_compute; reflexivity).
  assert (read_mapping_file mapping_file s1 = (Ret m, s2)) as Hr1
      by (vm_compute; reflexivity).
  assert (read_mapping_file mapping_file s2 = (Ret m, s3)) as Hr2
      by (vm_compute; reflexivity).
  assert (create_index es "ubi_events" m s3 = (Ret true, s4)) as Hc1
      by (vm_compute; reflexivity).
  assert (create_index es "ubi_queries" m s4 = (Ret true, s5)) as Hc2
      by (vm_compute; reflexivity).
  assert (bulk_index_documents es bulk_file s5 = (Ret true, s6)) as Hb
      by (vm_compute; reflexivity).
  split; [exact Hh|]. split; [exact Hhe|]. split; [exact Hk|].
  split; [exact Hke|]. split; [exact Hc|]. split; [exact Hr1|].
  split; [exact Hr2|]. split; [exact Hc1|]. split; [exact Hc2|].
  split; [exact Hb|].
  exact (proj2 (proj2 (proj2 (main_stops_at_first_failure s h "secret" es m m
                                s1 s2 s3 true s4 Hh Hhe Hk Hke Hc Hr1 Hr2 Hc1)
                         eq_refl true s5 Hc2)
                  eq_refl true s6 Hb)
           eq_refl).
Defined.

Lemma read_mapping_file_result_witness :
  let s := start sim in
  let m := JObj [("mappings",
                  JObj [("properties",
                         JObj [("f", JObj [("type", JStr "long")])])])] in
  let denied := PyException "PermissionError" in
  read_text mapping_file (world s) = (inr mapping_text, sim) /\
  json_loads mapping_text = Some m /\
  read_mapping_file mapping_file s
  = (Ret m,
     {| trace := trace s ++ [OpenFile mapping_file;
                             Print (MsgMappingRead mapping_file)];
        world := sim |}) /\
  @read_text unit locked mapping_file tt = (inl denied, tt) /\
  denied <> FileNotFoundError /\ denied <> JSONDecodeError /\
  @read_mapping_file Reference.python unit locked mapping_file
    {| trace := []; world := tt |}
  = (Raise denied, {| trace := [] ++ [OpenFile mapping_file]; world := tt |}).
Proof.
  intros s m denied.
  assert (read_text mapping_file (world s) = (inr mapping_text, sim)) as Hr
      by (vm_compute; reflexivity).
  assert (json_loads mapping_text = Some m) as Hm by (vm_compute; reflexivity).
  assert (@read_text unit locked mapping_file tt = (inl denied, tt)) as Hd
      by reflexivity.
  assert (denied <> FileNotFoundError) as H1 by discriminate.
  assert (denied <> JSONDecodeError) as H2 by discriminate.
  split; [exact Hr|]. split; [exact Hm|].
  split; [exact (proj1 (read_mapping_file_result mapping_file s)
                   mapping_text sim m Hr Hm)|].
  split; [exact Hd|]. split; [exact H1|]. split; [exact H2|].
  exact (proj2 (@read_mapping_file_result Reference.python unit locked
                  mapping_file {| trace := []; world := tt |})
           denied tt Hd H1 H2).
Defined.

Lemma bulk_index_documents_false_iff_witness :
  let s := start sim in
  let p := parse_ndjson_for_bulk bulk_file s in
  let docs := [record1; record2] in
  let w' := snd (es_bulk es docs 1000 (world (snd p))) in
  fst p = Ret (Some docs) /\
  docs <> [] /\
  es_bulk es docs 1000 (world (snd p)) = (inr (2, []), w') /\
  bulk_index_documents es bulk_file s
  = (Ret true,
     {| trace := trace (snd p) ++ [Net es (Bulk docs 1000);
                                   Print (MsgIndexed 2)];
        world := w' |}) /\
  Sim.indices w' !! "a" = Some (JNull, docs).
Proof.
  intros s p docs w'.
  assert (fst p = Ret (Some docs)) as Hp by (vm_compute; reflexivity).
  assert (docs <> []) as Hne by discriminate.
  assert (es_bulk es docs 1000 (world (snd p)) = (inr (2, []), w')) as Hb
      by (vm_compute; reflexivity).
  pose proof (bulk_index_documents_false_iff es bulk_file s)
    as (_ & _ & _ & T & _).
  split; [exact Hp|]. split; [exact Hne|]. split; [exact Hb|].
  split; [exact (T docs 2 w' Hp Hne Hb)|]. vm_compute. reflexivity.
Defined.

Lemma unreadable_file_sends_nothing_witness :
  let w := world_of vars [] [] in
  let s' := {| trace := trace (start w)
                        ++ [OpenFile bulk_file;
                            Print (MsgNdjsonNotFound bulk_file)];
               world := w |} in
  read_text bulk_file (world (start w)) = (inl FileNotFoundError, w) /\
  parse_ndjson_for_bulk bulk_file (start w) = (Ret None, s') /\
  bulk_index_documents es bulk_file (start w) = (Ret false, s').
Proof.
  intros w s'.
  assert (read_text bulk_file (world (start w)) = (inl FileNotFoundError, w))
    as Hr by (vm_compute; reflexivity).
  split; [exact Hr|].
  exact (unreadable_file_sends_nothing es bulk_file (start w)
           FileNotFoundError w Hr).
Defined.

Lemma main_exit_status_witness :
  let s : state unit := {| trace := []; world := tt |} in
  let denied := PyException "PermissionError" in
  @main Reference.python unit locked s
  = (Raise denied,
     {| trace := [Print MsgStart; Print (MsgConnecting "set");
                  NewClient {| hosts := ["set"]; api_key := "set";
                               request_timeout := 60 |};
                  Net {| hosts := ["set"]; api_key := "set";
                         request_timeout := 60 |} Ping;
                  Print (MsgConnected "set"); OpenFile mapping_file];
        world := tt |}) /\
  exit_status (fst (@main Reference.python unit locked s)) = Some 1 /\
  denied <> FileNotFoundError /\ denied <> JSONDecodeError.
Proof.
  intros s denied.
  assert (fst (@main Reference.python unit locked s) = Raise denied) as Hm
      by (vm_compute; reflexivity).
  split; [vm_compute; reflexivity|].
  destruct (@main_exit_status Reference.python unit locked s)
    as ([H|H] & _ & T); [rewrite Hm in H; discriminate H|].
  split; [exact H|exact (T denied Hm)].
Defined.

End MoreRuns.
